(** * AI Career Coach: the quiz client's interaction controller

    A shallow embedding of the client script (its TypeScript source and the
    compiled [FrontEnd/dist/script.js], which differ only in the host of the
    two endpoints): the session record [assessmentState], the page elements
    the script binds, the click handlers, the two asynchronous request
    functions [callApi] and [fetchAnswer], and the response dispatch
    [updateUI].

    The script is imperative: every function reads and writes the global
    session record and the bound page elements.  It is embedded as a state
    and exception monad over a [World] that holds both, together with the
    observable effects (alerts, console output, requests handed to [fetch])
    and the number of [async] bodies suspended at their [await].  An [async]
    function is split where it suspends: the part that runs inside its
    caller, and the continuation that runs once the exchange has ended. *)

From Stdlib Require Import String List Bool ZArith Lia.
Import ListNotations.
Open Scope string_scope.

(** ** Part 1: interfaces *)

Record UserAnswer := mkUserAnswer {
  question : string;
  correct : bool
}.

Record AssessmentState := mkAssessmentState {
  career : string;
  previous_answers : list UserAnswer;
  total_questions : Z;
  is_retry : bool
}.

(** An element of the [resources] array; [link] is optional. *)
Record Resource := mkResource {
  r_type : string;
  r_title : string;
  r_link : option string
}.

(** [ApiResponse].  An optional field that is absent reads as [undefined],
    here [None].  The script reads [message] through [data.message || ''],
    so it is optional as well. *)
Record ApiResponse := mkApiResponse {
  message : option string;
  next_question : option string;
  resources : option (list Resource);
  final_step : bool;
  answer : option string
}.

(** The body of a [/reveal-answer] response, [{ answer: string }]. *)
Record RevealResponse := mkRevealResponse {
  rr_answer : string
}.

(** ** Part 2: page elements and state *)

(** The elements whose [classList] the script changes.  The only class it
    ever adds or removes is ['hidden'], so a [classList] is kept as the flag
    that tells whether it holds ['hidden']. *)
Inductive Panel :=
| startScreen | questionScreen | resultsScreen | loadingIndicator
| revealBtn | retryBtn | answerBox.

(** The elements whose [textContent] the script reads or writes. *)
Inductive TextEl := aiMessageEl | aiQuestionEl | aiAnswerEl.

(** What [resourcesBox] holds after the script filled it: a heading and a
    list whose items are kept as the markup assigned to their [innerHTML]. *)
Inductive BoxNode :=
| NodeH4 (text : string)
| NodeUl (items : list string).

Record Dom := mkDom {
  hid_startScreen : bool;
  hid_questionScreen : bool;
  hid_resultsScreen : bool;
  hid_loadingIndicator : bool;
  hid_revealBtn : bool;
  hid_retryBtn : bool;
  hid_answerBox : bool;
  careerInput_value : string;
  txt_aiMessageEl : string;
  txt_aiQuestionEl : string;
  txt_aiAnswerEl : string;
  jobList : list string;
  resourcesBox : list BoxNode
}.

Definition hidden (p : Panel) (d : Dom) : bool :=
  match p with
  | startScreen => hid_startScreen d
  | questionScreen => hid_questionScreen d
  | resultsScreen => hid_resultsScreen d
  | loadingIndicator => hid_loadingIndicator d
  | revealBtn => hid_revealBtn d
  | retryBtn => hid_retryBtn d
  | answerBox => hid_answerBox d
  end.

Definition set_hidden (p : Panel) (b : bool) (d : Dom) : Dom :=
  match d with
  | mkDom h1 h2 h3 h4 h5 h6 h7 ci t1 t2 t3 jl rb =>
    match p with
    | startScreen => mkDom b h2 h3 h4 h5 h6 h7 ci t1 t2 t3 jl rb
    | questionScreen => mkDom h1 b h3 h4 h5 h6 h7 ci t1 t2 t3 jl rb
    | resultsScreen => mkDom h1 h2 b h4 h5 h6 h7 ci t1 t2 t3 jl rb
    | loadingIndicator => mkDom h1 h2 h3 b h5 h6 h7 ci t1 t2 t3 jl rb
    | revealBtn => mkDom h1 h2 h3 h4 b h6 h7 ci t1 t2 t3 jl rb
    | retryBtn => mkDom h1 h2 h3 h4 h5 b h7 ci t1 t2 t3 jl rb
    | answerBox => mkDom h1 h2 h3 h4 h5 h6 b ci t1 t2 t3 jl rb
    end
  end.

Definition textContent (e : TextEl) (d : Dom) : string :=
  match e with
  | aiMessageEl => txt_aiMessageEl d
  | aiQuestionEl => txt_aiQuestionEl d
  | aiAnswerEl => txt_aiAnswerEl d
  end.

Definition set_textContent (e : TextEl) (s : string) (d : Dom) : Dom :=
  match d with
  | mkDom h1 h2 h3 h4 h5 h6 h7 ci t1 t2 t3 jl rb =>
    match e with
    | aiMessageEl => mkDom h1 h2 h3 h4 h5 h6 h7 ci s t2 t3 jl rb
    | aiQuestionEl => mkDom h1 h2 h3 h4 h5 h6 h7 ci t1 s t3 jl rb
    | aiAnswerEl => mkDom h1 h2 h3 h4 h5 h6 h7 ci t1 t2 s jl rb
    end
  end.

Definition set_careerInput (s : string) (d : Dom) : Dom :=
  match d with
  | mkDom h1 h2 h3 h4 h5 h6 h7 _ t1 t2 t3 jl rb =>
    mkDom h1 h2 h3 h4 h5 h6 h7 s t1 t2 t3 jl rb
  end.

Definition set_jobList (l : list string) (d : Dom) : Dom :=
  match d with
  | mkDom h1 h2 h3 h4 h5 h6 h7 ci t1 t2 t3 _ rb =>
    mkDom h1 h2 h3 h4 h5 h6 h7 ci t1 t2 t3 l rb
  end.

Definition set_resourcesBox (l : list BoxNode) (d : Dom) : Dom :=
  match d with
  | mkDom h1 h2 h3 h4 h5 h6 h7 ci t1 t2 t3 jl _ =>
    mkDom h1 h2 h3 h4 h5 h6 h7 ci t1 t2 t3 jl l
  end.

(** A request handed to [fetch]: the endpoint and the body, which is
    [JSON.stringify] of a value at the time of the call, so a snapshot. *)
Inductive Request :=
| PostCareerAssessment (body : AssessmentState)
| PostRevealAnswer (body_question : string).

(** What a rejected [await] throws: [fetch] rejects on a network failure,
    [response.json()] on a body that is not JSON. *)
Inductive Error := NetworkError | ParseError.

(** How the exchange behind one request ends.  [fetch] and
    [response.json()] are awaited one after the other and the script does
    nothing between the two, so one outcome stands for both. *)
Inductive Outcome (A : Type) :=
| Rejected (e : Error)
| Resolved (data : A).
Arguments Rejected {A} e.
Arguments Resolved {A} data.

Record World := mkWorld {
  assessmentState : AssessmentState;
  dom : Dom;
  alerts : list string;
  console_errors : list (string * Error);
  requests : list Request;
  (** bodies of [callApi] and of [fetchAnswer] suspended at their [await] *)
  awaiting_callApi : nat;
  awaiting_fetchAnswer : nat
}.

(** The record the script creates at load time. *)
Definition initial_assessmentState : AssessmentState :=
  mkAssessmentState "" [] 3 false.

(** ** The monad of the script: state over [World], with exceptions *)

Inductive Result (A : Type) :=
| Returned (a : A)
| Thrown (e : Error).
Arguments Returned {A} a.
Arguments Thrown {A} e.

Definition M (A : Type) : Type := World -> Result A * World.

Definition ret {A} (a : A) : M A := fun w => (Returned a, w).

Definition bind {A B} (m : M A) (k : A -> M B) : M B :=
  fun w =>
    match m w with
    | (Returned a, w1) => k a w1
    | (Thrown e, w1) => (Thrown e, w1)
    end.

Definition throw {A} (e : Error) : M A := fun w => (Thrown e, w).

Notation "x <- m ;; k" := (bind m (fun x => k))
  (at level 61, m at next level, right associativity).
Notation "m ;; k" := (bind m (fun _ => k))
  (at level 61, right associativity).

(** [try { body } catch (error) { handler } finally { fin }]. *)
Definition try_catch_finally (body : M unit) (handler : Error -> M unit)
    (fin : M unit) : M unit :=
  fun w =>
    let (r1, w1) := body w in
    let (r2, w2) :=
      match r1 with
      | Returned _ => (Returned tt, w1)
      | Thrown e => handler e w1
      end in
    let (r3, w3) := fin w2 in
    match r3 with
    | Returned _ => (r2, w3)
    | Thrown e => (Thrown e, w3)
    end.

Definition exec {A} (m : M A) (w : World) : World := snd (m w).
Definition result {A} (m : M A) (w : World) : Result A := fst (m w).

(** *** Primitive effects *)

Definition modify_dom (f : Dom -> Dom) : M unit :=
  fun w =>
    (Returned tt,
     mkWorld (assessmentState w) (f (dom w)) (alerts w) (console_errors w)
       (requests w) (awaiting_callApi w) (awaiting_fetchAnswer w)).

Definition modify_state (f : AssessmentState -> AssessmentState) : M unit :=
  fun w =>
    (Returned tt,
     mkWorld (f (assessmentState w)) (dom w) (alerts w) (console_errors w)
       (requests w) (awaiting_callApi w) (awaiting_fetchAnswer w)).

Definition get_dom : M Dom := fun w => (Returned (dom w), w).
Definition get_state : M AssessmentState :=
  fun w => (Returned (assessmentState w), w).

(** [el.classList.add('hidden')] and [el.classList.remove('hidden')]. *)
Definition classList_add (p : Panel) : M unit := modify_dom (set_hidden p true).
Definition classList_remove (p : Panel) : M unit :=
  modify_dom (set_hidden p false).

Definition write_text (e : TextEl) (s : string) : M unit :=
  modify_dom (set_textContent e s).
Definition read_text (e : TextEl) : M string :=
  d <- get_dom ;; ret (textContent e d).

Definition alert (msg : string) : M unit :=
  fun w =>
    (Returned tt,
     mkWorld (assessmentState w) (dom w) (alerts w ++ [msg]) (console_errors w)
       (requests w) (awaiting_callApi w) (awaiting_fetchAnswer w)).

Definition console_error (msg : string) (e : Error) : M unit :=
  fun w =>
    (Returned tt,
     mkWorld (assessmentState w) (dom w) (alerts w)
       (console_errors w ++ [(msg, e)])
       (requests w) (awaiting_callApi w) (awaiting_fetchAnswer w)).

(** [fetch(url, { method: 'POST', ..., body })]: the request leaves. *)
Definition fetch (r : Request) : M unit :=
  fun w =>
    (Returned tt,
     mkWorld (assessmentState w) (dom w) (alerts w) (console_errors w)
       (requests w ++ [r]) (awaiting_callApi w) (awaiting_fetchAnswer w)).

(** The value of [await fetch(...)] followed by [await response.json()]
    once the exchange has ended: the data, or the rejection thrown. *)
Definition await {A} (o : Outcome A) : M A :=
  match o with
  | Rejected e => throw e
  | Resolved data => ret data
  end.

Definition suspend_callApi : M unit :=
  fun w =>
    (Returned tt,
     mkWorld (assessmentState w) (dom w) (alerts w) (console_errors w)
       (requests w) (S (awaiting_callApi w)) (awaiting_fetchAnswer w)).

Definition suspend_fetchAnswer : M unit :=
  fun w =>
    (Returned tt,
     mkWorld (assessmentState w) (dom w) (alerts w) (console_errors w)
       (requests w) (awaiting_callApi w) (S (awaiting_fetchAnswer w))).

Definition resume_callApi : M unit :=
  fun w =>
    (Returned tt,
     mkWorld (assessmentState w) (dom w) (alerts w) (console_errors w)
       (requests w) (pred (awaiting_callApi w)) (awaiting_fetchAnswer w)).

Definition resume_fetchAnswer : M unit :=
  fun w =>
    (Returned tt,
     mkWorld (assessmentState w) (dom w) (alerts w) (console_errors w)
       (requests w) (awaiting_callApi w) (pred (awaiting_fetchAnswer w))).

(** *** JavaScript idioms the script uses *)

(** Truthiness of a string: every string but the empty one. *)
Definition truthy (s : string) : bool := negb (String.eqb s "").

(** [s || d] on strings. *)
Definition or_else (s d : string) : string := if truthy s then s else d.

(** [o || d] where [o] may be [undefined]. *)
Definition opt_or_else (o : option string) (d : string) : string :=
  match o with
  | Some s => or_else s d
  | None => d
  end.

(** An optional string interpolated in a template literal. *)
Definition interpolate (o : option string) : string :=
  match o with
  | Some s => s
  | None => "undefined"
  end.

(** The double-quote character of the markup templates. *)
Definition dq : string := String (Ascii.ascii_of_nat 34) EmptyString.

(** [array.forEach(f)] with an effectful callback. *)
Fixpoint forEach {A} (f : A -> M unit) (l : list A) : M unit :=
  match l with
  | [] => ret tt
  | x :: rest => f x ;; forEach f rest
  end.

(** ** Part 4: API communication and UI updates *)

(** The markup of one item of the results list. *)
Definition job_markup (job : Resource) : string :=
  "<a href=" ++ dq ++ interpolate (r_link job) ++ dq ++ " target=" ++ dq
    ++ "_blank" ++ dq ++ ">" ++ r_title job ++ "</a>".

(** The markup of one item of the learning resources. *)
Definition resource_markup (resource : Resource) : string :=
  "<a href=" ++ dq ++ interpolate (r_link resource) ++ dq ++ " target=" ++ dq
    ++ "_blank" ++ dq ++ " style=" ++ dq ++ "color: #dc3545;" ++ dq ++ ">"
    ++ r_title resource ++ "</a> (" ++ r_type resource ++ ")".

Definition review_prompt : string :=
  "Please review the resources below, then click 'Retry Question' to continue.".

Definition resources_heading : string := "Here are some resources to help:".

Definition jobList_appendChild (markup : string) : M unit :=
  modify_dom (fun d => set_jobList (jobList d ++ [markup]) d).

Definition resourcesBox_appendChild (n : BoxNode) : M unit :=
  modify_dom (fun d => set_resourcesBox (resourcesBox d ++ [n]) d).

(** The branch of [updateUI] taken when [data.final_step] holds. *)
Definition show_results (data : ApiResponse) : M unit :=
  classList_add questionScreen ;;
  classList_remove resultsScreen ;;
  modify_dom (set_jobList []) ;;
  match resources data with
  | Some jobs => forEach (fun job => jobList_appendChild (job_markup job)) jobs
  | None => ret tt
  end.

(** Case 1: the API returned learning resources.  The [ul] is filled while
    detached and appended once, so its items are computed beside the page. *)
Definition show_resources (data : ApiResponse) (rs : list Resource) : M unit :=
  write_text aiMessageEl (opt_or_else (message data) "") ;;
  write_text aiQuestionEl review_prompt ;;
  classList_add revealBtn ;;
  classList_add answerBox ;;
  classList_remove retryBtn ;;
  modify_dom (set_resourcesBox []) ;;
  resourcesBox_appendChild (NodeH4 resources_heading) ;;
  resourcesBox_appendChild (NodeUl (map resource_markup rs)).

(** Case 2: the API returned a new question. *)
Definition show_question (data : ApiResponse) (q : string) : M unit :=
  write_text aiMessageEl (opt_or_else (message data) "") ;;
  write_text aiQuestionEl q ;;
  classList_add answerBox ;;
  classList_remove revealBtn ;;
  classList_add retryBtn ;;
  modify_dom (set_resourcesBox []).

(** [data.resources && data.resources.length > 0]: the array when the test
    holds. *)
Definition nonempty_resources (data : ApiResponse) : option (list Resource) :=
  match resources data with
  | Some rs => if Nat.ltb 0 (length rs) then Some rs else None
  | None => None
  end.

(** [data.next_question] when it is truthy. *)
Definition truthy_next_question (data : ApiResponse) : option string :=
  match next_question data with
  | Some q => if truthy q then Some q else None
  | None => None
  end.

Definition updateUI (data : ApiResponse) : M unit :=
  if final_step data then show_results data
  else
    match nonempty_resources data with
    | Some rs => show_resources data rs
    | None =>
      match truthy_next_question data with
      | Some q => show_question data q
      | None => ret tt
      end
    end.

Definition career_assessment_failed : string :=
  "API call to /career-assessment failed:".
Definition reveal_answer_failed : string :=
  "API call to /reveal-answer failed:".
Definition error_fetching_answer : string := "Error fetching answer.".

(** [callApi] up to its first [await]: this much runs inside the caller. *)
Definition callApi_request : M unit :=
  classList_remove loadingIndicator ;;
  st <- get_state ;;
  fetch (PostCareerAssessment st) ;;
  suspend_callApi.

(** [callApi] from its [await] on, once the exchange has ended with [o]. *)
Definition callApi_continue (o : Outcome ApiResponse) : M unit :=
  resume_callApi ;;
  try_catch_finally
    (data <- await o ;; updateUI data)
    (fun error => console_error career_assessment_failed error)
    (classList_add loadingIndicator).

(** [fetchAnswer] up to its first [await]. *)
Definition fetchAnswer_request : M unit :=
  classList_remove loadingIndicator ;;
  t <- read_text aiQuestionEl ;;
  fetch (PostRevealAnswer (or_else t "")) ;;
  suspend_fetchAnswer.

(** [fetchAnswer] from its [await] on. *)
Definition fetchAnswer_continue (o : Outcome RevealResponse) : M unit :=
  resume_fetchAnswer ;;
  try_catch_finally
    (data <- await o ;;
     write_text aiAnswerEl (rr_answer data) ;;
     classList_remove answerBox)
    (fun error =>
       console_error reveal_answer_failed error ;;
       write_text aiAnswerEl error_fetching_answer ;;
       classList_remove answerBox)
    (classList_add loadingIndicator).

(** ** Part 3: event listeners and handlers *)

Definition set_career (c : string) (s : AssessmentState) : AssessmentState :=
  mkAssessmentState c (previous_answers s) (total_questions s) (is_retry s).

Definition push_answer (a : UserAnswer) (s : AssessmentState) : AssessmentState :=
  mkAssessmentState (career s) (previous_answers s ++ [a]) (total_questions s)
    (is_retry s).

Definition set_is_retry (b : bool) (s : AssessmentState) : AssessmentState :=
  mkAssessmentState (career s) (previous_answers s) (total_questions s) b.

Definition startAssessment : M unit :=
  d <- get_dom ;;
  modify_state (set_career (careerInput_value d)) ;;
  st <- get_state ;;
  if negb (truthy (career st)) then alert "Please enter a career."
  else
    classList_add startScreen ;;
    classList_remove questionScreen ;;
    callApi_request.

Definition handleAnswer (isCorrect : bool) : M unit :=
  t <- read_text aiQuestionEl ;;
  modify_state (push_answer (mkUserAnswer (or_else t "") isCorrect)) ;;
  modify_state (set_is_retry false) ;;
  callApi_request.

(** The listener registered on [retryBtn]. *)
Definition retryListener : M unit :=
  modify_state (set_is_retry true) ;;
  callApi_request.

(** What can happen to the page: the user edits the career field or clicks
    a button, or the exchange behind a suspended request ends. *)
Inductive Event :=
| TypeCareer (s : string)
| ClickStart
| ClickReveal
| ClickCorrect
| ClickIncorrect
| ClickRetry
| CareerAssessmentSettled (o : Outcome ApiResponse)
| RevealAnswerSettled (o : Outcome RevealResponse).

(** The listeners of Part 3, and the continuations of the two requests. *)
Definition handler (ev : Event) : M unit :=
  match ev with
  | TypeCareer s => modify_dom (set_careerInput s)
  | ClickStart => startAssessment
  | ClickReveal => fetchAnswer_request
  | ClickCorrect => handleAnswer true
  | ClickIncorrect => handleAnswer false
  | ClickRetry => retryListener
  | CareerAssessmentSettled o => callApi_continue o
  | RevealAnswerSettled o => fetchAnswer_continue o
  end.

(** Modelled from the spec: the page markup and its style sheet are not part
    of the sources.  The spec names a start view, a question view and a
    results view, with the reveal, correct, incorrect and retry controls as
    parts of the question view, and the class ['hidden'] takes an element
    and what it contains off the screen.  A control can be clicked only
    while it and its view are on the screen; the career field and the start
    button belong to the start view.  A request can settle only while a body
    of its function is suspended. *)
Definition enabled (ev : Event) (w : World) : bool :=
  match ev with
  | TypeCareer _ => negb (hidden startScreen (dom w))
  | ClickStart => negb (hidden startScreen (dom w))
  | ClickReveal =>
      negb (hidden questionScreen (dom w)) && negb (hidden revealBtn (dom w))
  | ClickCorrect | ClickIncorrect => negb (hidden questionScreen (dom w))
  | ClickRetry =>
      negb (hidden questionScreen (dom w)) && negb (hidden retryBtn (dom w))
  | CareerAssessmentSettled _ => Nat.ltb 0 (awaiting_callApi w)
  | RevealAnswerSettled _ => Nat.ltb 0 (awaiting_fetchAnswer w)
  end.

(** One turn of the event loop: the handler of an enabled event runs to its
    end or to its [await]. *)
Definition step (ev : Event) (w : World) : option World :=
  if enabled ev w then Some (exec (handler ev) w) else None.

Fixpoint run (evs : list Event) (w : World) : option World :=
  match evs with
  | [] => Some w
  | ev :: rest =>
    match step ev w with
    | Some w1 => run rest w1
    | None => None
    end
  end.

(** Modelled from the spec: the page as it is loaded, in the start view (the
    start view on the screen, the question and results views hidden), with
    the session record of the script, nothing requested and nothing
    suspended.  The rest of the page is whatever the markup holds. *)
Definition loaded (w : World) : Prop :=
  assessmentState w = initial_assessmentState /\
  hidden startScreen (dom w) = false /\
  hidden questionScreen (dom w) = true /\
  hidden resultsScreen (dom w) = true /\
  requests w = [] /\
  awaiting_callApi w = 0 /\
  awaiting_fetchAnswer w = 0.

Definition reachable (w : World) : Prop :=
  exists w0 evs, loaded w0 /\ run evs w0 = Some w.

(** A page as the markup most plausibly loads it, for concrete runs. *)
Definition fresh_dom : Dom :=
  mkDom false true true true false true true "" "" "" "" [] [].

Definition fresh_world : World :=
  mkWorld initial_assessmentState fresh_dom [] [] [] 0 0.

(** ** Vocabulary of the properties *)

(** A world that differs from [w] in its page only. *)
Definition with_dom (d : Dom) (w : World) : World :=
  mkWorld (assessmentState w) d (alerts w) (console_errors w) (requests w)
    (awaiting_callApi w) (awaiting_fetchAnswer w).

(** What [updateUI] does to the page, read off a run of it. *)
Definition updateUI_dom (data : ApiResponse) (d : Dom) : Dom :=
  dom (exec (updateUI data)
         (mkWorld initial_assessmentState d [] [] [] 0 0)).

(** The question on display. *)
Definition displayed (w : World) : string := textContent aiQuestionEl (dom w).

(** The click that grades the displayed question with self-report [b]. *)
Definition grade (b : bool) : Event :=
  if b then ClickCorrect else ClickIncorrect.

(** The self-report of a grading click. *)
Definition self_report (ev : Event) : option bool :=
  match ev with
  | ClickCorrect => Some true
  | ClickIncorrect => Some false
  | _ => None
  end.

(** The self-reports of a run, in the order of the clicks. *)
Fixpoint grades (evs : list Event) : list bool :=
  match evs with
  | [] => []
  | ev :: rest =>
    match self_report ev with
    | Some b => b :: grades rest
    | None => grades rest
    end
  end.

(** The records a run is to append: for each grading click, the question
    on display when it happens with its self-report. *)
Fixpoint graded (evs : list Event) (w : World) : list UserAnswer :=
  match evs with
  | [] => []
  | ev :: rest =>
    match self_report ev with
    | Some b => mkUserAnswer (displayed w) b :: graded rest (exec (handler ev) w)
    | None => graded rest (exec (handler ev) w)
    end
  end.

(** The user actions Begin, Grade and Retry. *)
Definition session_action (ev : Event) : bool :=
  match ev with
  | ClickStart | ClickCorrect | ClickIncorrect | ClickRetry => true
  | _ => false
  end.

(** Blank characters: space, tab, line feed, carriage return. *)
Definition is_blank (c : Ascii.ascii) : bool :=
  let n := Ascii.nat_of_ascii c in
  Nat.eqb n 32 || Nat.eqb n 9 || Nat.eqb n 10 || Nat.eqb n 13.

(** An empty or whitespace-only string. *)
Fixpoint whitespace_only (s : string) : bool :=
  match s with
  | EmptyString => true
  | String c rest => is_blank c && whitespace_only rest
  end.

(** While the start view is on the screen nothing has happened yet: the
    other two views are hidden, no request was sent, none is awaited, and
    the retry flag is down.  Once the results view is on the screen the
    question view is hidden. *)
Definition page_invariant (w : World) : Prop :=
  (hidden startScreen (dom w) = false ->
     hidden questionScreen (dom w) = true /\
     hidden resultsScreen (dom w) = true /\
     awaiting_callApi w = 0 /\
     requests w = [] /\
     is_retry (assessmentState w) = false /\
     previous_answers (assessmentState w) = []) /\
  (hidden resultsScreen (dom w) = false ->
     hidden questionScreen (dom w) = true).

(** What the server is sent with a progress request, against the session
    [st] of the state it is read in: the career of the session, which is not
    empty, three questions in total, and a history that the history of the
    session extends. *)
Definition request_in_order (st : AssessmentState) (r : Request) : Prop :=
  match r with
  | PostCareerAssessment body =>
      career body <> "" /\
      career body = career st /\
      total_questions body = 3%Z /\
      exists more : list UserAnswer,
        previous_answers st = (previous_answers body ++ more)%list
  | PostRevealAnswer _ => True
  end.

(** The session is as Begin leaves it: three questions in total and, once
    the start view is hidden, a career that is not empty. *)
Definition session_invariant (w : World) : Prop :=
  total_questions (assessmentState w) = 3%Z /\
  (hidden startScreen (dom w) = true -> career (assessmentState w) <> "") /\
  Forall (request_in_order (assessmentState w)) (requests w).

(** The text [data.message || ''] of a response. *)
Definition message_text (data : ApiResponse) : string :=
  match message data with
  | Some m => m
  | None => ""
  end.

(** The suspended bodies of both request functions. *)
Definition awaiting (w : World) : nat :=
  awaiting_callApi w + awaiting_fetchAnswer w.

(** *** Links in markup

    The script hands an item its content as markup, through [innerHTML];
    what the page then shows as links are the anchor elements that the
    parser of the markup opens.  It opens one at each anchor start tag: the
    character [<], then [a] or [A], then a blank, [/] or [>].  The count
    below is taken over the characters of the markup, so it is exact for
    markup whose attribute values hold no [<]. *)







(** ** A sample session, for concrete runs *)

Definition first_question : ApiResponse :=
  mkApiResponse (Some "Welcome.") (Some "What does a nurse chart?") None false
    None.

Definition second_question : ApiResponse :=
  mkApiResponse (Some "Good.") (Some "What is triage?") (Some []) false None.

Definition remediation : ApiResponse :=
  mkApiResponse (Some "Review these first.") (Some "What is triage?")
    (Some [mkResource "video" "Triage basics" (Some "https://example.org/t")])
    false None.

Definition final_results : ApiResponse :=
  mkApiResponse (Some "Done.") None
    (Some [mkResource "job" "Staff nurse" (Some "https://example.org/a");
           mkResource "job" "Ward nurse" None])
    true None.

(** The world a run from the sample page ends in. *)
Definition after (evs : list Event) : World :=
  match run evs fresh_world with
  | Some w => w
  | None => fresh_world
  end.

Definition begin_session : list Event :=
  [TypeCareer "nurse"; ClickStart;
   CareerAssessmentSettled (Resolved first_question)].

Definition graded_session : list Event :=
  (begin_session ++
   [ClickCorrect; CareerAssessmentSettled (Resolved second_question);
    ClickIncorrect; CareerAssessmentSettled (Resolved first_question);
    ClickCorrect])%list.

Definition remediation_session : list Event :=
  (begin_session ++
   [ClickIncorrect; CareerAssessmentSettled (Resolved remediation)])%list.

Definition awaiting_session : list Event :=
  (begin_session ++ [ClickCorrect])%list.

(** * Properties *)

(** ** Basic facts about the page and the monad *)

Lemma with_dom_same (w : World) : with_dom (dom w) w = w.
Proof. destruct w; reflexivity. Qed.

Lemma modify_dom_run (f : Dom -> Dom) (w : World) :
  modify_dom f w = (Returned tt, with_dom (f (dom w)) w).
Proof. reflexivity. Qed.

Lemma hidden_set_same (p : Panel) (b : bool) (d : Dom) :
  hidden p (set_hidden p b d) = b.
Proof. destruct d, p; reflexivity. Qed.

Lemma hidden_set_other (p q : Panel) (b : bool) (d : Dom) :
  p <> q -> hidden p (set_hidden q b d) = hidden p d.
Proof. destruct d, p, q; intros H; try reflexivity; contradiction. Qed.

Lemma or_else_empty (s : string) : or_else s "" = s.
Proof.
  unfold or_else, truthy.
  destruct (String.eqb_spec s "") as [-> | _]; reflexivity.
Qed.

Lemma truthy_true_iff (s : string) : truthy s = true <-> s <> "".
Proof.
  unfold truthy. destruct (String.eqb_spec s ""); simpl; split; congruence.
Qed.

(** Filling the results list appends one item for each job, in order, and
    touches nothing else. *)
Lemma forEach_jobList (jobs : list Resource) (w : World) :
  forEach (fun job => jobList_appendChild (job_markup job)) jobs w =
  (Returned tt,
   with_dom (set_jobList (jobList (dom w) ++ map job_markup jobs) (dom w)) w).
Proof.
  revert w. induction jobs as [| job rest IH]; intros w.
  - simpl. rewrite app_nil_r. destruct w as [st d al ce rq n1 n2].
    destruct d. reflexivity.
  - simpl. unfold bind, jobList_appendChild. rewrite modify_dom_run, IH.
    destruct w as [st d al ce rq n1 n2]. destruct d. simpl.
    rewrite <- app_assoc. reflexivity.
Qed.

Lemma show_results_run (data : ApiResponse) (w : World) :
  show_results data w =
  (Returned tt,
   with_dom
     (set_jobList
        (map job_markup (match resources data with Some l => l | None => [] end))
        (set_hidden resultsScreen false (set_hidden questionScreen true (dom w))))
     w).
Proof.
  unfold show_results, bind, classList_add, classList_remove.
  rewrite !modify_dom_run.
  destruct (resources data) as [jobs |].
  - rewrite forEach_jobList. destruct w as [st d al ce rq n1 n2].
    destruct d. reflexivity.
  - destruct w as [st d al ce rq n1 n2]. destruct d. reflexivity.
Qed.

Lemma updateUI_run (data : ApiResponse) (w : World) :
  updateUI data w = (Returned tt, with_dom (updateUI_dom data (dom w)) w).
Proof.
  unfold updateUI_dom, exec, updateUI.
  destruct (final_step data).
  - rewrite !show_results_run. reflexivity.
  - destruct (nonempty_resources data) as [rs |].
    + reflexivity.
    + destruct (truthy_next_question data) as [q |].
      * reflexivity.
      * simpl. unfold ret. rewrite with_dom_same. reflexivity.
Qed.

Lemma show_resources_run (data : ApiResponse) (rs : list Resource) (w : World) :
  show_resources data rs w =
  (Returned tt,
   with_dom
     (set_resourcesBox
        [NodeH4 resources_heading; NodeUl (map resource_markup rs)]
        (set_hidden retryBtn false
           (set_hidden answerBox true
              (set_hidden revealBtn true
                 (set_textContent aiQuestionEl review_prompt
                    (set_textContent aiMessageEl
                       (opt_or_else (message data) "") (dom w)))))))
     w).
Proof. destruct w as [st d al ce rq n1 n2]. destruct d. reflexivity. Qed.

Lemma show_question_run (data : ApiResponse) (q : string) (w : World) :
  show_question data q w =
  (Returned tt,
   with_dom
     (set_resourcesBox []
        (set_hidden retryBtn true
           (set_hidden revealBtn false
              (set_hidden answerBox true
                 (set_textContent aiQuestionEl q
                    (set_textContent aiMessageEl
                       (opt_or_else (message data) "") (dom w)))))))
     w).
Proof. destruct w as [st d al ce rq n1 n2]. destruct d. reflexivity. Qed.

Lemma updateUI_dom_run (data : ApiResponse) (d : Dom) :
  updateUI_dom data d =
  if final_step data then
    set_jobList
      (map job_markup (match resources data with Some l => l | None => [] end))
      (set_hidden resultsScreen false (set_hidden questionScreen true d))
  else
    match nonempty_resources data with
    | Some rs =>
      set_resourcesBox
        [NodeH4 resources_heading; NodeUl (map resource_markup rs)]
        (set_hidden retryBtn false
           (set_hidden answerBox true
              (set_hidden revealBtn true
                 (set_textContent aiQuestionEl review_prompt
                    (set_textContent aiMessageEl
                       (opt_or_else (message data) "") d)))))
    | None =>
      match truthy_next_question data with
      | Some q =>
        set_resourcesBox []
          (set_hidden retryBtn true
             (set_hidden revealBtn false
                (set_hidden answerBox true
                   (set_textContent aiQuestionEl q
                      (set_textContent aiMessageEl
                         (opt_or_else (message data) "") d)))))
      | None => d
      end
    end.
Proof.
  unfold updateUI_dom, exec, updateUI.
  destruct (final_step data).
  - rewrite show_results_run. reflexivity.
  - destruct (nonempty_resources data).
    + rewrite show_resources_run. reflexivity.
    + destruct (truthy_next_question data); [| reflexivity].
      rewrite show_question_run. reflexivity.
Qed.

(** [updateUI] leaves the start view alone; a final step swaps the question
    view for the results view, any other response leaves both alone. *)
Lemma updateUI_dom_screens (data : ApiResponse) (d : Dom) :
  hidden startScreen (updateUI_dom data d) = hidden startScreen d /\
  (final_step data = true ->
     hidden questionScreen (updateUI_dom data d) = true /\
     hidden resultsScreen (updateUI_dom data d) = false) /\
  (final_step data = false ->
     hidden questionScreen (updateUI_dom data d) = hidden questionScreen d /\
     hidden resultsScreen (updateUI_dom data d) = hidden resultsScreen d).
Proof.
  rewrite updateUI_dom_run.
  destruct (final_step data).
  - destruct d; repeat split; try reflexivity; discriminate.
  - destruct (nonempty_resources data);
      [| destruct (truthy_next_question data)];
      destruct d; repeat split; try reflexivity; discriminate.
Qed.

Lemma callApi_request_run (w : World) :
  callApi_request w =
  (Returned tt,
   mkWorld (assessmentState w) (set_hidden loadingIndicator false (dom w))
     (alerts w) (console_errors w)
     (requests w ++ [PostCareerAssessment (assessmentState w)])
     (S (awaiting_callApi w)) (awaiting_fetchAnswer w)).
Proof. reflexivity. Qed.

Lemma callApi_continue_resolved (data : ApiResponse) (w : World) :
  callApi_continue (Resolved data) w =
  (Returned tt,
   mkWorld (assessmentState w)
     (set_hidden loadingIndicator true (updateUI_dom data (dom w)))
     (alerts w) (console_errors w) (requests w)
     (pred (awaiting_callApi w)) (awaiting_fetchAnswer w)).
Proof.
  unfold callApi_continue, bind, resume_callApi, try_catch_finally, await, ret.
  rewrite updateUI_run. reflexivity.
Qed.

Lemma callApi_continue_rejected (e : Error) (w : World) :
  callApi_continue (Rejected e) w =
  (Returned tt,
   mkWorld (assessmentState w) (set_hidden loadingIndicator true (dom w))
     (alerts w) (console_errors w ++ [(career_assessment_failed, e)])
     (requests w) (pred (awaiting_callApi w)) (awaiting_fetchAnswer w)).
Proof. reflexivity. Qed.

Lemma fetchAnswer_request_run (w : World) :
  fetchAnswer_request w =
  (Returned tt,
   mkWorld (assessmentState w) (set_hidden loadingIndicator false (dom w))
     (alerts w) (console_errors w)
     (requests w ++ [PostRevealAnswer (displayed w)])
     (awaiting_callApi w) (S (awaiting_fetchAnswer w))).
Proof.
  unfold fetchAnswer_request, bind, classList_remove, read_text, get_dom, ret,
    fetch, suspend_fetchAnswer, displayed.
  rewrite modify_dom_run. simpl. rewrite or_else_empty.
  destruct w as [st d al ce rq n1 n2]. destruct d. reflexivity.
Qed.

Lemma fetchAnswer_continue_resolved (data : RevealResponse) (w : World) :
  fetchAnswer_continue (Resolved data) w =
  (Returned tt,
   mkWorld (assessmentState w)
     (set_hidden loadingIndicator true
        (set_hidden answerBox false
           (set_textContent aiAnswerEl (rr_answer data) (dom w))))
     (alerts w) (console_errors w) (requests w)
     (awaiting_callApi w) (pred (awaiting_fetchAnswer w))).
Proof. reflexivity. Qed.

Lemma fetchAnswer_continue_rejected (e : Error) (w : World) :
  fetchAnswer_continue (Rejected e) w =
  (Returned tt,
   mkWorld (assessmentState w)
     (set_hidden loadingIndicator true
        (set_hidden answerBox false
           (set_textContent aiAnswerEl error_fetching_answer (dom w))))
     (alerts w) (console_errors w ++ [(reveal_answer_failed, e)]) (requests w)
     (awaiting_callApi w) (pred (awaiting_fetchAnswer w))).
Proof. reflexivity. Qed.

Lemma handleAnswer_run (isCorrect : bool) (w : World) :
  handleAnswer isCorrect w =
  (Returned tt,
   let st :=
     mkAssessmentState (career (assessmentState w))
       (previous_answers (assessmentState w)
          ++ [mkUserAnswer (displayed w) isCorrect])
       (total_questions (assessmentState w)) false in
   mkWorld st (set_hidden loadingIndicator false (dom w))
     (alerts w) (console_errors w)
     (requests w ++ [PostCareerAssessment st])
     (S (awaiting_callApi w)) (awaiting_fetchAnswer w)).
Proof.
  unfold handleAnswer, bind, read_text, get_dom, ret, displayed. simpl.
  rewrite or_else_empty. reflexivity.
Qed.

Lemma retryListener_run (w : World) :
  retryListener w =
  (Returned tt,
   let st := set_is_retry true (assessmentState w) in
   mkWorld st (set_hidden loadingIndicator false (dom w))
     (alerts w) (console_errors w)
     (requests w ++ [PostCareerAssessment st])
     (S (awaiting_callApi w)) (awaiting_fetchAnswer w)).
Proof. reflexivity. Qed.

Lemma startAssessment_empty (w : World) :
  careerInput_value (dom w) = "" ->
  startAssessment w =
  (Returned tt,
   mkWorld (set_career "" (assessmentState w)) (dom w)
     (alerts w ++ ["Please enter a career."]) (console_errors w) (requests w)
     (awaiting_callApi w) (awaiting_fetchAnswer w)).
Proof.
  intros H. unfold startAssessment, bind, get_dom, get_state, modify_state.
  simpl. rewrite H. reflexivity.
Qed.

Lemma startAssessment_nonempty (w : World) :
  careerInput_value (dom w) <> "" ->
  startAssessment w =
  (Returned tt,
   let st := set_career (careerInput_value (dom w)) (assessmentState w) in
   mkWorld st
     (set_hidden loadingIndicator false
        (set_hidden questionScreen false
           (set_hidden startScreen true (dom w))))
     (alerts w) (console_errors w)
     (requests w ++ [PostCareerAssessment st])
     (S (awaiting_callApi w)) (awaiting_fetchAnswer w)).
Proof.
  intros H. apply truthy_true_iff in H.
  unfold startAssessment, bind, get_dom, get_state, modify_state.
  simpl. rewrite H. reflexivity.
Qed.

(** ** The event loop *)

Lemma run_app (evs1 evs2 : list Event) (w : World) :
  run (evs1 ++ evs2)%list w =
  match run evs1 w with
  | Some w1 => run evs2 w1
  | None => None
  end.
Proof.
  revert w. induction evs1 as [| ev rest IH]; intros w; simpl.
  - reflexivity.
  - destruct (step ev w); [apply IH | reflexivity].
Qed.

Lemma step_inv (ev : Event) (w w' : World) :
  step ev w = Some w' -> enabled ev w = true /\ w' = exec (handler ev) w.
Proof.
  unfold step. destruct (enabled ev w); [| discriminate].
  intros H. injection H as <-. split; reflexivity.
Qed.

Lemma reachable_step (ev : Event) (w w' : World) :
  reachable w -> step ev w = Some w' -> reachable w'.
Proof.
  intros (w0 & evs & Hl & Hr) Hs. exists w0, (evs ++ [ev])%list. split; [exact Hl |].
  rewrite run_app, Hr. simpl. rewrite Hs. reflexivity.
Qed.

Lemma reachable_run (evs : list Event) (w w' : World) :
  reachable w -> run evs w = Some w' -> reachable w'.
Proof.
  intros (w0 & evs0 & Hl & Hr) H. exists w0, (evs0 ++ evs)%list. split; [exact Hl |].
  rewrite run_app, Hr. exact H.
Qed.

(** What each event does to the fields the invariant reads. *)
Ltac event_effect :=
  match goal with
  | |- context [exec (handler (CareerAssessmentSettled (Resolved ?data))) ?w] =>
      unfold exec; simpl handler; rewrite (callApi_continue_resolved data w)
  | |- context [exec (handler (CareerAssessmentSettled (Rejected ?e))) ?w] =>
      unfold exec; simpl handler; rewrite (callApi_continue_rejected e w)
  | |- context [exec (handler (RevealAnswerSettled (Resolved ?data))) ?w] =>
      unfold exec; simpl handler; rewrite (fetchAnswer_continue_resolved data w)
  | |- context [exec (handler (RevealAnswerSettled (Rejected ?e))) ?w] =>
      unfold exec; simpl handler; rewrite (fetchAnswer_continue_rejected e w)
  | |- context [exec (handler ClickCorrect) ?w] =>
      unfold exec; simpl handler; rewrite (handleAnswer_run true w)
  | |- context [exec (handler ClickIncorrect) ?w] =>
      unfold exec; simpl handler; rewrite (handleAnswer_run false w)
  | |- context [exec (handler ClickRetry) ?w] =>
      unfold exec; simpl handler; rewrite (retryListener_run w)
  | |- context [exec (handler ClickReveal) ?w] =>
      unfold exec; simpl handler; rewrite (fetchAnswer_request_run w)
  end.

Lemma loaded_invariant (w : World) : loaded w -> page_invariant w.
Proof.
  intros (Hst & Hs & Hq & Hr & Hreq & Hn & _). split.
  - intros _. rewrite Hst. repeat split; assumption.
  - rewrite Hr. discriminate.
Qed.

Lemma step_invariant (ev : Event) (w w' : World) :
  page_invariant w -> step ev w = Some w' -> page_invariant w'.
Proof.
  intros [Hstart Hres] Hs. apply step_inv in Hs as [Hen ->].
  unfold page_invariant.
  destruct ev as [s | | | | | | o | o]; simpl in Hen.
  - (* the career field is edited *)
    unfold exec. simpl. destruct w as [st d al ce rq n1 n2]. destruct d.
    split; [exact Hstart | exact Hres].
  - (* Begin *)
    apply negb_true_iff in Hen.
    destruct (Hstart Hen) as (Hq & Hr & Hn & Hreq & Hretry & Hpa).
    destruct (string_dec (careerInput_value (dom w)) "") as [He | Hne].
    + unfold exec. simpl handler. rewrite (startAssessment_empty w He). simpl.
      split; [| exact Hres]. intros _. repeat split; assumption.
    + unfold exec. simpl handler. rewrite (startAssessment_nonempty w Hne).
      destruct w as [st d al ce rq n1 n2]. destruct d. cbn in *.
      split; intros H; [discriminate | congruence].
  - (* Reveal *)
    apply andb_true_iff in Hen as [Hq _]. apply negb_true_iff in Hq.
    event_effect. destruct w as [st d al ce rq n1 n2]. destruct d. cbn in *.
    split; intros H.
    + destruct (Hstart H) as (Hq' & _). congruence.
    + exact (Hres H).
  - (* Grade, correct *)
    apply negb_true_iff in Hen.
    event_effect. destruct w as [st d al ce rq n1 n2]. destruct d. cbn in *.
    split; intros H.
    + destruct (Hstart H) as (Hq' & _). congruence.
    + exact (Hres H).
  - (* Grade, incorrect *)
    apply negb_true_iff in Hen.
    event_effect. destruct w as [st d al ce rq n1 n2]. destruct d. cbn in *.
    split; intros H.
    + destruct (Hstart H) as (Hq' & _). congruence.
    + exact (Hres H).
  - (* Retry *)
    apply andb_true_iff in Hen as [Hq _]. apply negb_true_iff in Hq.
    event_effect. destruct w as [st d al ce rq n1 n2]. destruct d. cbn in *.
    split; intros H.
    + destruct (Hstart H) as (Hq' & _). congruence.
    + exact (Hres H).
  - (* a progress request settles *)
    apply Nat.ltb_lt in Hen.
    assert (Hhid : hidden startScreen (dom w) = true).
    { destruct (hidden startScreen (dom w)) eqn:E; [reflexivity |].
      destruct (Hstart eq_refl) as (_ & _ & Hn & _). lia. }
    destruct o as [e | data]; event_effect.
    + destruct w as [st d al ce rq n1 n2]. destruct d. cbn in *.
      split; intros H; [congruence | exact (Hres H)].
    + destruct (updateUI_dom_screens data (dom w)) as (Hs & Hfin & Hnot).
      cbn [snd dom]. rewrite !hidden_set_other by discriminate. rewrite Hs.
      split; intros H; [congruence |].
      destruct (final_step data).
      * apply Hfin. reflexivity.
      * destruct (Hnot eq_refl) as [Hq Hr]. rewrite Hq. apply Hres.
        rewrite <- Hr. exact H.
  - (* a reveal request settles *)
    destruct o as [e | data]; event_effect;
      destruct w as [st d al ce rq n1 n2]; destruct d; cbn in *;
      (split; [exact Hstart | exact Hres]).
Qed.

Lemma run_invariant (evs : list Event) (w w' : World) :
  page_invariant w -> run evs w = Some w' -> page_invariant w'.
Proof.
  revert w. induction evs as [| ev rest IH]; intros w Hinv Hrun; simpl in Hrun.
  - injection Hrun as <-. exact Hinv.
  - destruct (step ev w) as [w1 |] eqn:Hs; [| discriminate].
    apply (IH w1); [| exact Hrun]. exact (step_invariant ev w w1 Hinv Hs).
Qed.

Lemma reachable_invariant (w : World) : reachable w -> page_invariant w.
Proof.
  intros (w0 & evs & Hl & Hr).
  exact (run_invariant evs w0 w (loaded_invariant w0 Hl) Hr).
Qed.

(** ** Response dispatch *)

(** C1.  A progress response with [final_step = false] and a non-empty
    [resources] list is dispatched to the remediation branch whatever its
    [next_question] holds: the retry control is shown and the reveal control
    is hidden, the displayed text is the review prompt and not the question
    of the response, and the resources are listed under the fixed heading. *)
Theorem updateUI_remediation_precedence
    (msg nq ans : option string) (r : Resource) (rs : list Resource)
    (w : World) :
  let data := mkApiResponse msg nq (Some (r :: rs)) false ans in
  let w' := exec (updateUI data) w in
  updateUI data = show_resources data (r :: rs) /\
  hidden retryBtn (dom w') = false /\
  hidden revealBtn (dom w') = true /\
  displayed w' = review_prompt /\
  resourcesBox (dom w') =
    [NodeH4 resources_heading; NodeUl (map resource_markup (r :: rs))].
Proof.
  intros data w'. split; [reflexivity |].
  unfold w', exec, displayed. rewrite updateUI_run, updateUI_dom_run.
  destruct w as [st d al ce rq n1 n2]. destruct d.
  repeat split; reflexivity.
Qed.

(** C6.  A progress response that is not final, whose [resources] are absent
    or empty and whose [next_question] is absent or empty, is processed
    without any effect: [updateUI] returns normally and leaves the whole
    world, so the whole page, as it was; the continuation of [callApi] around
    it only hides the loading indicator again and logs no error. *)
Theorem updateUI_unrecognised_noop (data : ApiResponse) (w : World) :
  final_step data = false ->
  resources data = None \/ resources data = Some [] ->
  next_question data = None \/ next_question data = Some "" ->
  updateUI data w = (Returned tt, w) /\
  callApi_continue (Resolved data) w =
    (Returned tt,
     mkWorld (assessmentState w) (set_hidden loadingIndicator true (dom w))
       (alerts w) (console_errors w) (requests w)
       (pred (awaiting_callApi w)) (awaiting_fetchAnswer w)).
Proof.
  intros Hfin Hres Hnq.
  assert (Hdom : updateUI_dom data (dom w) = dom w).
  { rewrite updateUI_dom_run, Hfin. unfold nonempty_resources, truthy_next_question.
    destruct Hres as [-> | ->]; destruct Hnq as [-> | ->]; reflexivity. }
  split.
  - rewrite updateUI_run, Hdom, with_dom_same. reflexivity.
  - rewrite callApi_continue_resolved, Hdom. reflexivity.
Qed.

Lemma updateUI_unrecognised_noop_witness :
  updateUI (mkApiResponse None (Some "") (Some []) false None) fresh_world =
    (Returned tt, fresh_world) /\
  callApi_continue (Resolved (mkApiResponse None (Some "") (Some []) false None))
      fresh_world =
    (Returned tt,
     mkWorld (assessmentState fresh_world)
       (set_hidden loadingIndicator true (dom fresh_world))
       (alerts fresh_world) (console_errors fresh_world) (requests fresh_world)
       (pred (awaiting_callApi fresh_world)) (awaiting_fetchAnswer fresh_world)).
Proof.
  apply (updateUI_unrecognised_noop
           (mkApiResponse None (Some "") (Some []) false None) fresh_world).
  - reflexivity.
  - right. reflexivity.
  - right. reflexivity.
Defined.

(** ** The loading indicator *)

(** Whatever the body and the handler of a [try] do, also when the handler
    throws, a [finally] block that hides the loading indicator leaves it
    hidden. *)
Lemma finally_hides_loading (body : M unit) (h : Error -> M unit) (w : World) :
  hidden loadingIndicator
    (dom (exec (try_catch_finally body h (classList_add loadingIndicator)) w))
  = true.
Proof.
  unfold exec, try_catch_finally.
  destruct (body w) as [r1 w1].
  destruct (match r1 with
            | Returned _ => (Returned tt, w1)
            | Thrown e => h e w1
            end) as [r2 w2].
  unfold classList_add. rewrite modify_dom_run.
  destruct r2; cbn [snd dom with_dom]; apply hidden_set_same.
Qed.

(** C7.  Both request functions show the loading indicator before the
    request leaves, and their continuation hides it however the exchange
    ends (rejected by the network, rejected by the parser, or resolved with
    any data), returning normally each time. *)
Theorem loading_indicator_scoped (w : World) :
  (hidden loadingIndicator (dom (exec callApi_request w)) = false /\
   hidden loadingIndicator (dom (exec fetchAnswer_request w)) = false) /\
  (forall o : Outcome ApiResponse,
     hidden loadingIndicator (dom (exec (callApi_continue o) w)) = true /\
     result (callApi_continue o) w = Returned tt) /\
  (forall o : Outcome RevealResponse,
     hidden loadingIndicator (dom (exec (fetchAnswer_continue o) w)) = true /\
     result (fetchAnswer_continue o) w = Returned tt).
Proof.
  split; [| split].
  - unfold exec. rewrite callApi_request_run, fetchAnswer_request_run.
    cbn [snd dom]. split; apply hidden_set_same.
  - intros o. split.
    + unfold callApi_continue.
      change (exec (resume_callApi ;; ?m) w) with (exec m (exec resume_callApi w)).
      apply finally_hides_loading.
    + unfold result. destruct o as [e | data].
      * rewrite callApi_continue_rejected. reflexivity.
      * rewrite callApi_continue_resolved. reflexivity.
  - intros o. split.
    + unfold fetchAnswer_continue.
      change (exec (resume_fetchAnswer ;; ?m) w)
        with (exec m (exec resume_fetchAnswer w)).
      apply finally_hides_loading.
    + destruct o; reflexivity.
Qed.

(** ** Revealing the answer *)

(** C8.  When the answer-reveal request fails, by the network or by the
    parser, the continuation of [fetchAnswer] writes the literal text
    "Error fetching answer." into the answer element and reveals the answer
    panel, as it reveals it on success; it logs the failure and returns
    normally, so nothing is propagated to the caller. *)
Theorem fetchAnswer_failure_fallback (e : Error) (w : World) :
  let w' := exec (fetchAnswer_continue (Rejected e)) w in
  textContent aiAnswerEl (dom w') = "Error fetching answer." /\
  hidden answerBox (dom w') = false /\
  result (fetchAnswer_continue (Rejected e)) w = Returned tt /\
  console_errors w' = (console_errors w ++ [(reveal_answer_failed, e)])%list /\
  (forall data : RevealResponse,
     let w2 := exec (fetchAnswer_continue (Resolved data)) w in
     textContent aiAnswerEl (dom w2) = rr_answer data /\
     hidden answerBox (dom w2) = false).
Proof.
  intros w'. unfold w', exec, result.
  rewrite fetchAnswer_continue_rejected.
  destruct w as [st d al ce rq n1 n2]. destruct d.
  repeat split; reflexivity.
Qed.

(** ** The session record *)

Lemma startAssessment_session (w : World) :
  assessmentState (exec startAssessment w) =
  set_career (careerInput_value (dom w)) (assessmentState w).
Proof.
  unfold exec.
  destruct (string_dec (careerInput_value (dom w)) "") as [He | Hne].
  - rewrite (startAssessment_empty w He), He. reflexivity.
  - rewrite (startAssessment_nonempty w Hne). reflexivity.
Qed.

(** What each event does to the session record. *)
Lemma handler_session (ev : Event) (w : World) :
  assessmentState (exec (handler ev) w) =
  match ev with
  | ClickStart => set_career (careerInput_value (dom w)) (assessmentState w)
  | ClickCorrect =>
      set_is_retry false
        (push_answer (mkUserAnswer (displayed w) true) (assessmentState w))
  | ClickIncorrect =>
      set_is_retry false
        (push_answer (mkUserAnswer (displayed w) false) (assessmentState w))
  | ClickRetry => set_is_retry true (assessmentState w)
  | _ => assessmentState w
  end.
Proof.
  destruct ev as [s | | | | | | [e | data] | [e | data]];
    try event_effect; try reflexivity.
  apply startAssessment_session.
Qed.

Lemma handler_history (ev : Event) (w : World) :
  previous_answers (assessmentState (exec (handler ev) w)) =
  (previous_answers (assessmentState w) ++
   match self_report ev with
   | Some b => [mkUserAnswer (displayed w) b]
   | None => []
   end)%list.
Proof.
  rewrite handler_session.
  destruct ev; simpl; try reflexivity; symmetry; apply app_nil_r.
Qed.

Lemma handler_total_questions (ev : Event) (w : World) :
  total_questions (assessmentState (exec (handler ev) w)) =
  total_questions (assessmentState w).
Proof. rewrite handler_session. destruct ev; reflexivity. Qed.

(** A run appends to the history the records of its grading clicks, in the
    order of the clicks, and leaves what was there in place. *)
Lemma run_history (evs : list Event) (w w' : World) :
  run evs w = Some w' ->
  previous_answers (assessmentState w') =
  (previous_answers (assessmentState w) ++ graded evs w)%list.
Proof.
  revert w. induction evs as [| ev rest IH]; intros w Hrun; simpl in Hrun.
  - injection Hrun as <-. simpl. symmetry. apply app_nil_r.
  - destruct (step ev w) as [w1 |] eqn:Hs; [| discriminate].
    apply step_inv in Hs as [_ ->].
    rewrite (IH _ Hrun), handler_history. simpl.
    destruct (self_report ev); simpl; rewrite <- app_assoc; reflexivity.
Qed.

Lemma graded_grades (evs : list Event) (w : World) :
  map correct (graded evs w) = grades evs.
Proof.
  revert w. induction evs as [| ev rest IH]; intros w; simpl.
  - reflexivity.
  - destruct (self_report ev); simpl; rewrite IH; reflexivity.
Qed.

Lemma run_total_questions (evs : list Event) (w w' : World) :
  run evs w = Some w' ->
  total_questions (assessmentState w') = total_questions (assessmentState w).
Proof.
  revert w. induction evs as [| ev rest IH]; intros w Hrun; simpl in Hrun.
  - injection Hrun as <-. reflexivity.
  - destruct (step ev w) as [w1 |] eqn:Hs; [| discriminate].
    apply step_inv in Hs as [_ ->].
    rewrite (IH _ Hrun). apply handler_total_questions.
Qed.

(** The requests an event sends. *)
Lemma handler_requests (ev : Event) (w : World) :
  requests (exec (handler ev) w) =
  (requests w ++
   match ev with
   | ClickStart =>
       if truthy (careerInput_value (dom w))
       then [PostCareerAssessment (assessmentState (exec (handler ev) w))]
       else []
   | ClickCorrect | ClickIncorrect | ClickRetry =>
       [PostCareerAssessment (assessmentState (exec (handler ev) w))]
   | ClickReveal => [PostRevealAnswer (displayed w)]
   | _ => []
   end)%list.
Proof.
  destruct ev as [s | | | | | | [e | data] | [e | data]];
    try (event_effect; cbn [snd requests]; try reflexivity;
         symmetry; apply app_nil_r).
  - unfold exec. simpl. symmetry. apply app_nil_r.
  - unfold exec. simpl handler.
    destruct (string_dec (careerInput_value (dom w)) "") as [He | Hne].
    + rewrite (startAssessment_empty w He), He. simpl. symmetry.
      apply app_nil_r.
    + rewrite (startAssessment_nonempty w Hne).
      apply truthy_true_iff in Hne. rewrite Hne. reflexivity.
Qed.

Lemma loaded_fresh_world : loaded fresh_world.
Proof. repeat split; reflexivity. Qed.

Lemma reachable_after (evs : list Event) :
  run evs fresh_world <> None -> reachable (after evs).
Proof.
  intros H. exists fresh_world, evs. split; [exact loaded_fresh_world |].
  unfold after. destruct (run evs fresh_world); [reflexivity | contradiction].
Qed.

(** ** Grading *)

(** C2.  In every run from the loaded page, the history holds exactly the
    records of the grading clicks of the run, in the order of the clicks,
    each pairing the question displayed at its click with its self-report:
    after [n] such clicks its length is [n].  In the state reached, one more
    Grade appends exactly one record and leaves [is_retry] false, also in
    the request it sends; and whatever runs afterwards keeps the history
    reached as a prefix. *)
Theorem grade_history (w0 : World) (evs : list Event) (w : World) :
  loaded w0 ->
  run evs w0 = Some w ->
  (previous_answers (assessmentState w) = graded evs w0 /\
   length (previous_answers (assessmentState w)) = length (grades evs) /\
   map correct (previous_answers (assessmentState w)) = grades evs) /\
  (forall b : bool,
     let w1 := exec (handleAnswer b) w in
     previous_answers (assessmentState w1) =
       (previous_answers (assessmentState w)
          ++ [mkUserAnswer (displayed w) b])%list /\
     is_retry (assessmentState w1) = false /\
     requests w1 =
       (requests w ++ [PostCareerAssessment (assessmentState w1)])%list) /\
  (forall (evs' : list Event) (w' : World),
     run evs' w = Some w' ->
     previous_answers (assessmentState w') =
       (previous_answers (assessmentState w) ++ graded evs' w)%list).
Proof.
  intros Hl Hrun.
  assert (Hhist : previous_answers (assessmentState w) = graded evs w0).
  { rewrite (run_history evs w0 w Hrun).
    destruct Hl as (-> & _). reflexivity. }
  split; [| split].
  - split; [exact Hhist |].
    rewrite Hhist, <- (graded_grades evs w0), length_map. split; reflexivity.
  - intros b w1. unfold w1, exec. rewrite handleAnswer_run.
    repeat split; reflexivity.
  - intros evs' w'. apply run_history.
Qed.

Lemma grade_history_witness :
  loaded fresh_world /\
  run graded_session fresh_world = Some (after graded_session) /\
  (previous_answers (assessmentState (after graded_session)) =
     graded graded_session fresh_world /\
   length (previous_answers (assessmentState (after graded_session))) =
     length (grades graded_session) /\
   map correct (previous_answers (assessmentState (after graded_session))) =
     grades graded_session) /\
  (forall b : bool,
     let w1 := exec (handleAnswer b) (after graded_session) in
     previous_answers (assessmentState w1) =
       (previous_answers (assessmentState (after graded_session))
          ++ [mkUserAnswer (displayed (after graded_session)) b])%list /\
     is_retry (assessmentState w1) = false /\
     requests w1 =
       (requests (after graded_session)
          ++ [PostCareerAssessment (assessmentState w1)])%list) /\
  (forall (evs' : list Event) (w' : World),
     run evs' (after graded_session) = Some w' ->
     previous_answers (assessmentState w') =
       (previous_answers (assessmentState (after graded_session))
          ++ graded evs' (after graded_session))%list).
Proof.
  split; [repeat split; reflexivity |].
  split; [vm_compute; reflexivity |].
  apply (grade_history fresh_world graded_session (after graded_session)).
  - repeat split; reflexivity.
  - vm_compute. reflexivity.
Defined.

(** The sample session grades three times, alternating. *)
Example graded_session_history :
  previous_answers (assessmentState (after graded_session)) =
  [mkUserAnswer "What does a nurse chart?" true;
   mkUserAnswer "What is triage?" false;
   mkUserAnswer "What does a nurse chart?" true].
Proof. vm_compute. reflexivity. Qed.

(** ** Retrying *)

(** In a state the invariant holds in, a progress request that carries
    [is_retry = true] was sent by the Retry listener. *)
Lemma retry_flag_sent_by_retry (ev : Event) (w w' : World)
    (body : AssessmentState) :
  page_invariant w ->
  step ev w = Some w' ->
  requests w' = (requests w ++ [PostCareerAssessment body])%list ->
  is_retry body = true ->
  ev = ClickRetry.
Proof.
  intros [Hstart _] Hs Hreq Hflag. apply step_inv in Hs as [Hen ->].
  rewrite handler_requests in Hreq. apply app_inv_head in Hreq.
  destruct ev as [s | | | | | | o | o]; try discriminate Hreq;
    try reflexivity.
  - (* Begin: the flag is still down *)
    simpl in Hen. apply negb_true_iff in Hen.
    destruct (Hstart Hen) as (_ & _ & _ & _ & Hretry & _).
    destruct (truthy (careerInput_value (dom w))); [| discriminate Hreq].
    injection Hreq as Hbody. subst body.
    change (exec startAssessment w) with (exec (handler ClickStart) w) in Hflag.
    rewrite handler_session in Hflag. simpl in Hflag. congruence.
  - injection Hreq as Hbody. subst body. discriminate Hflag.
  - injection Hreq as Hbody. subst body. discriminate Hflag.
Qed.

(** C3.  Where Retry can be clicked, its listener, which runs up to the
    request it sends, leaves the history and the displayed question as they
    were, raises [is_retry] and sends the next progress request with
    [is_retry = true] and the same history.  The history is still the same
    once that request has settled, however it ends.  Afterwards every Grade
    lowers the flag before its own request leaves, and no progress request
    other than one sent by Retry itself carries [is_retry = true]. *)
Theorem retry_frame (w : World) :
  reachable w ->
  enabled ClickRetry w = true ->
  let w1 := exec retryListener w in
  step ClickRetry w = Some w1 /\
  (previous_answers (assessmentState w1) = previous_answers (assessmentState w) /\
   displayed w1 = displayed w /\
   is_retry (assessmentState w1) = true /\
   requests w1 =
     (requests w
        ++ [PostCareerAssessment (set_is_retry true (assessmentState w))])%list) /\
  (forall (o : Outcome ApiResponse) (w2 : World),
     step (CareerAssessmentSettled o) w1 = Some w2 ->
     previous_answers (assessmentState w2) =
       previous_answers (assessmentState w)) /\
  (forall (evs : list Event) (w2 : World) (b : bool) (w3 : World),
     run evs w1 = Some w2 ->
     step (grade b) w2 = Some w3 ->
     is_retry (assessmentState w3) = false /\
     requests w3 =
       (requests w2 ++ [PostCareerAssessment (assessmentState w3)])%list) /\
  (forall (evs : list Event) (w2 : World) (ev : Event) (w3 : World)
          (body : AssessmentState),
     run evs w1 = Some w2 ->
     step ev w2 = Some w3 ->
     requests w3 = (requests w2 ++ [PostCareerAssessment body])%list ->
     is_retry body = true ->
     ev = ClickRetry).
Proof.
  intros Hreach Hen w1.
  assert (Hstep : step ClickRetry w = Some w1).
  { unfold step. rewrite Hen. reflexivity. }
  split; [exact Hstep |].
  split; [| split; [| split]].
  - unfold w1, exec, displayed. rewrite retryListener_run.
    destruct w as [st d al ce rq n1 n2]. destruct d.
    repeat split; reflexivity.
  - intros o w2 Hs. apply step_inv in Hs as [_ ->].
    rewrite handler_history. cbn [self_report]. rewrite app_nil_r.
    unfold w1, exec. rewrite retryListener_run. reflexivity.
  - intros evs w2 b w3 _ Hs. apply step_inv in Hs as [_ ->].
    destruct b; simpl grade; unfold exec; simpl handler;
      rewrite handleAnswer_run; split; reflexivity.
  - intros evs w2 ev w3 body Hrun Hs Hreq Hflag.
    apply (retry_flag_sent_by_retry ev w2 w3 body); try assumption.
    apply reachable_invariant.
    apply (reachable_run evs w1 w2); [| exact Hrun].
    exact (reachable_step ClickRetry w w1 Hreach Hstep).
Qed.

Lemma retry_frame_witness :
  reachable (after remediation_session) /\
  enabled ClickRetry (after remediation_session) = true /\
  let w := after remediation_session in
  let w1 := exec retryListener w in
  step ClickRetry w = Some w1 /\
  (previous_answers (assessmentState w1) = previous_answers (assessmentState w) /\
   displayed w1 = displayed w /\
   is_retry (assessmentState w1) = true /\
   requests w1 =
     (requests w
        ++ [PostCareerAssessment (set_is_retry true (assessmentState w))])%list) /\
  (forall (o : Outcome ApiResponse) (w2 : World),
     step (CareerAssessmentSettled o) w1 = Some w2 ->
     previous_answers (assessmentState w2) =
       previous_answers (assessmentState w)) /\
  (forall (evs : list Event) (w2 : World) (b : bool) (w3 : World),
     run evs w1 = Some w2 ->
     step (grade b) w2 = Some w3 ->
     is_retry (assessmentState w3) = false /\
     requests w3 =
       (requests w2 ++ [PostCareerAssessment (assessmentState w3)])%list) /\
  (forall (evs : list Event) (w2 : World) (ev : Event) (w3 : World)
          (body : AssessmentState),
     run evs w1 = Some w2 ->
     step ev w2 = Some w3 ->
     requests w3 = (requests w2 ++ [PostCareerAssessment body])%list ->
     is_retry body = true ->
     ev = ClickRetry).
Proof.
  assert (Hreach : reachable (after remediation_session)).
  { apply reachable_after. vm_compute. discriminate. }
  split; [exact Hreach |].
  split; [vm_compute; reflexivity |].
  apply (retry_frame (after remediation_session) Hreach).
  vm_compute. reflexivity.
Defined.

(** The response to a retry, not the retry, is what replaces the displayed
    question. *)
Example retry_then_next_question :
  let w1 := exec retryListener (after remediation_session) in
  displayed w1 = review_prompt /\
  displayed (exec (callApi_continue (Resolved second_question)) w1) =
    "What is triage?".
Proof. vm_compute. split; reflexivity. Qed.

(** ** Frame of the session record *)

(** C9.  [updateUI] leaves the session record as it is, field by field; so
    does every event that is not one of the user actions Begin, Grade and
    Retry (editing the career field, Reveal, and either kind of request
    settling); and [total_questions] is 3 in every reachable state. *)
Theorem session_frame (w : World) :
  reachable w ->
  total_questions (assessmentState w) = 3%Z /\
  (forall (data : ApiResponse) (u : World),
     let u' := exec (updateUI data) u in
     career (assessmentState u') = career (assessmentState u) /\
     previous_answers (assessmentState u') =
       previous_answers (assessmentState u) /\
     total_questions (assessmentState u') =
       total_questions (assessmentState u) /\
     is_retry (assessmentState u') = is_retry (assessmentState u)) /\
  (forall (ev : Event) (u : World),
     session_action ev = false ->
     assessmentState (exec (handler ev) u) = assessmentState u).
Proof.
  intros (w0 & evs & Hl & Hrun). split; [| split].
  - rewrite (run_total_questions evs w0 w Hrun).
    destruct Hl as (-> & _). reflexivity.
  - intros data u u'. unfold u', exec. rewrite updateUI_run.
    repeat split; reflexivity.
  - intros ev u Hev. rewrite handler_session.
    destruct ev; try reflexivity; discriminate Hev.
Qed.

Lemma session_frame_witness :
  reachable (after graded_session) /\
  total_questions (assessmentState (after graded_session)) = 3%Z /\
  (forall (data : ApiResponse) (u : World),
     let u' := exec (updateUI data) u in
     career (assessmentState u') = career (assessmentState u) /\
     previous_answers (assessmentState u') =
       previous_answers (assessmentState u) /\
     total_questions (assessmentState u') =
       total_questions (assessmentState u) /\
     is_retry (assessmentState u') = is_retry (assessmentState u)) /\
  (forall (ev : Event) (u : World),
     session_action ev = false ->
     assessmentState (exec (handler ev) u) = assessmentState u).
Proof.
  assert (Hreach : reachable (after graded_session)).
  { apply reachable_after. vm_compute. discriminate. }
  split; [exact Hreach |].
  exact (session_frame (after graded_session) Hreach).
Defined.

(** ** A failed progress request *)

(** C10.  Where Grade can be clicked: grading, then the failure of the
    request that Grade sent, then grading again is a run of the page.  After
    the failure the record of the first Grade is still in the history and
    the displayed question is the same, and the second Grade appends a
    second record for that same question. *)
Theorem grade_not_rolled_back (w : World) (b1 b2 : bool) (e : Error) :
  enabled (grade b1) w = true ->
  exists w2 w3 : World,
    run [grade b1; CareerAssessmentSettled (Rejected e)] w = Some w2 /\
    step (grade b2) w2 = Some w3 /\
    previous_answers (assessmentState w2) =
      (previous_answers (assessmentState w)
         ++ [mkUserAnswer (displayed w) b1])%list /\
    displayed w2 = displayed w /\
    previous_answers (assessmentState w3) =
      (previous_answers (assessmentState w)
         ++ [mkUserAnswer (displayed w) b1;
             mkUserAnswer (displayed w) b2])%list.
Proof.
  intros Hen.
  assert (Hq : hidden questionScreen (dom w) = false).
  { destruct b1; simpl in Hen; apply negb_true_iff in Hen; exact Hen. }
  exists (exec (callApi_continue (Rejected e)) (exec (handleAnswer b1) w)).
  exists (exec (handleAnswer b2)
            (exec (callApi_continue (Rejected e)) (exec (handleAnswer b1) w))).
  unfold exec, displayed.
  rewrite (handleAnswer_run b1 w). cbn [snd].
  rewrite callApi_continue_rejected. cbn [snd].
  rewrite handleAnswer_run. cbn [snd].
  destruct w as [st d al ce rq n1 n2]. destruct d. cbn in Hq. subst.
  destruct b1, b2; cbn; rewrite ?or_else_empty; repeat split;
    try reflexivity; rewrite <- app_assoc; reflexivity.
Qed.

Lemma grade_not_rolled_back_witness :
  enabled (grade true) (after begin_session) = true /\
  exists w2 w3 : World,
    run [grade true; CareerAssessmentSettled (Rejected NetworkError)]
      (after begin_session) = Some w2 /\
    step (grade true) w2 = Some w3 /\
    previous_answers (assessmentState w2) =
      (previous_answers (assessmentState (after begin_session))
         ++ [mkUserAnswer (displayed (after begin_session)) true])%list /\
    displayed w2 = displayed (after begin_session) /\
    previous_answers (assessmentState w3) =
      (previous_answers (assessmentState (after begin_session))
         ++ [mkUserAnswer (displayed (after begin_session)) true;
             mkUserAnswer (displayed (after begin_session)) true])%list.
Proof.
  split; [vm_compute; reflexivity |].
  apply (grade_not_rolled_back (after begin_session) true true NetworkError).
  vm_compute. reflexivity.
Defined.

(** The question of the sample session is recorded twice. *)
Example grade_twice_after_failure :
  option_map (fun w => previous_answers (assessmentState w))
    (run [ClickCorrect; CareerAssessmentSettled (Rejected NetworkError);
          ClickCorrect] (after begin_session)) =
  Some [mkUserAnswer "What does a nurse chart?" true;
        mkUserAnswer "What does a nurse chart?" true].
Proof. vm_compute. reflexivity. Qed.

(** ** Begin *)

(** C4, as stated, fails: a career of one space is whitespace-only, yet it
    is truthy, so Begin sends a request and leaves the start view without
    alerting. *)
Lemma startAssessment_whitespace_counterexample :
  let w := exec (handler (TypeCareer " ")) fresh_world in
  let w' := exec startAssessment w in
  whitespace_only (careerInput_value (dom w)) = true /\
  enabled ClickStart w = true /\
  requests w = [] /\
  requests w' = [PostCareerAssessment (mkAssessmentState " " [] 3 false)] /\
  hidden startScreen (dom w') = true /\
  hidden questionScreen (dom w') = false /\
  alerts w' = [].
Proof. vm_compute. repeat split; reflexivity. Qed.

(** C4, amended.  With an empty career field, Begin sends no request,
    suspends nothing, leaves the page as it is and alerts the user before it
    returns.  With any other career field, blank characters included, it
    hides the start view, shows the question view and sends one progress
    request that carries the career, without alerting. *)
Theorem startAssessment_guard (w : World) :
  let w' := exec startAssessment w in
  (careerInput_value (dom w) = "" ->
     requests w' = requests w /\
     awaiting_callApi w' = awaiting_callApi w /\
     dom w' = dom w /\
     alerts w' = (alerts w ++ ["Please enter a career."])%list) /\
  (careerInput_value (dom w) <> "" ->
     hidden startScreen (dom w') = true /\
     hidden questionScreen (dom w') = false /\
     requests w' =
       (requests w
          ++ [PostCareerAssessment
                (set_career (careerInput_value (dom w)) (assessmentState w))])%list /\
     awaiting_callApi w' = S (awaiting_callApi w) /\
     alerts w' = alerts w).
Proof.
  intros w'. unfold w', exec. split; intros H.
  - rewrite (startAssessment_empty w H). repeat split; reflexivity.
  - rewrite (startAssessment_nonempty w H).
    destruct w as [st d al ce rq n1 n2]. destruct d.
    repeat split; reflexivity.
Qed.

Lemma startAssessment_guard_witness :
  (requests (exec startAssessment fresh_world) = requests fresh_world /\
   awaiting_callApi (exec startAssessment fresh_world) =
     awaiting_callApi fresh_world /\
   dom (exec startAssessment fresh_world) = dom fresh_world /\
   alerts (exec startAssessment fresh_world) =
     (alerts fresh_world ++ ["Please enter a career."])%list) /\
  (let w := exec (handler (TypeCareer "nurse")) fresh_world in
   let w' := exec startAssessment w in
   hidden startScreen (dom w') = true /\
   hidden questionScreen (dom w') = false /\
   requests w' =
     (requests w
        ++ [PostCareerAssessment
              (set_career (careerInput_value (dom w)) (assessmentState w))])%list /\
   awaiting_callApi w' = S (awaiting_callApi w) /\
   alerts w' = alerts w).
Proof.
  split.
  - apply (proj1 (startAssessment_guard fresh_world)). reflexivity.
  - apply (proj2 (startAssessment_guard
                    (exec (handler (TypeCareer "nurse")) fresh_world))).
    vm_compute. discriminate.
Defined.

(** ** The results view *)








(** On the results view of the sample session every click is refused. *)
Example results_view_refuses_clicks :
  let w := exec (callApi_continue (Resolved final_results))
             (after awaiting_session) in
  map (fun ev => match step ev w with Some _ => true | None => false end)
    [TypeCareer "x"; ClickStart; ClickReveal; ClickCorrect; ClickIncorrect;
     ClickRetry] =
  [false; false; false; false; false; false].
Proof. vm_compute. reflexivity. Qed.

(** * Further properties of the script *)

(** ** The branches of [updateUI] *)

Lemma opt_or_else_message (data : ApiResponse) :
  opt_or_else (message data) "" = message_text data.
Proof.
  unfold opt_or_else, message_text.
  destruct (message data) as [m |]; [apply or_else_empty | reflexivity].
Qed.

(** X1.  A response that is not final, has no resource and carries a
    question that is not empty is shown as the next question: its text
    replaces the displayed question, its message (the empty text when the
    message is absent) replaces the displayed message, the reveal control is
    shown, the retry control and the answer panel are hidden and the
    resources panel is emptied.  The text of the answer element is kept:
    only its panel is hidden. *)
Theorem updateUI_next_question (data : ApiResponse) (q : string) (w : World) :
  final_step data = false ->
  resources data = None \/ resources data = Some [] ->
  next_question data = Some q ->
  q <> "" ->
  let w' := exec (updateUI data) w in
  displayed w' = q /\
  textContent aiMessageEl (dom w') = message_text data /\
  hidden revealBtn (dom w') = false /\
  hidden retryBtn (dom w') = true /\
  hidden answerBox (dom w') = true /\
  resourcesBox (dom w') = [] /\
  textContent aiAnswerEl (dom w') = textContent aiAnswerEl (dom w) /\
  jobList (dom w') = jobList (dom w).
Proof.
  intros Hfin Hres Hq Hne w'.
  assert (Hdom : dom w' =
    set_resourcesBox []
      (set_hidden retryBtn true
         (set_hidden revealBtn false
            (set_hidden answerBox true
               (set_textContent aiQuestionEl q
                  (set_textContent aiMessageEl (message_text data) (dom w))))))).
  { unfold w', exec. rewrite updateUI_run. cbn [snd dom with_dom].
    rewrite updateUI_dom_run, Hfin.
    unfold nonempty_resources, truthy_next_question. rewrite Hq.
    apply truthy_true_iff in Hne. rewrite Hne, opt_or_else_message.
    destruct Hres as [-> | ->]; reflexivity. }
  unfold displayed. rewrite Hdom. destruct (dom w).
  repeat split; reflexivity.
Qed.

Lemma updateUI_next_question_witness :
  let w' := exec (updateUI second_question) (after remediation_session) in
  displayed w' = "What is triage?" /\
  textContent aiMessageEl (dom w') = message_text second_question /\
  hidden revealBtn (dom w') = false /\
  hidden retryBtn (dom w') = true /\
  hidden answerBox (dom w') = true /\
  resourcesBox (dom w') = [] /\
  textContent aiAnswerEl (dom w') =
    textContent aiAnswerEl (dom (after remediation_session)) /\
  jobList (dom w') = jobList (dom (after remediation_session)).
Proof.
  apply (updateUI_next_question second_question "What is triage?"
           (after remediation_session)).
  - reflexivity.
  - right. reflexivity.
  - reflexivity.
  - discriminate.
Defined.



(** X3.  Whatever the response, [updateUI] returns normally, alerts
    nothing, logs nothing, sends nothing and suspends nothing, and it never
    touches the start view, the loading indicator, the career field or the
    text of the answer element. *)
Theorem updateUI_never_touches (data : ApiResponse) (w : World) :
  let w' := exec (updateUI data) w in
  result (updateUI data) w = Returned tt /\
  (alerts w' = alerts w /\
   console_errors w' = console_errors w /\
   requests w' = requests w /\
   awaiting w' = awaiting w) /\
  (hidden startScreen (dom w') = hidden startScreen (dom w) /\
   hidden loadingIndicator (dom w') = hidden loadingIndicator (dom w) /\
   careerInput_value (dom w') = careerInput_value (dom w) /\
   textContent aiAnswerEl (dom w') = textContent aiAnswerEl (dom w)).
Proof.
  intros w'. unfold w', exec, result. rewrite updateUI_run.
  cbn [fst snd dom with_dom alerts console_errors requests].
  split; [reflexivity |]. split; [repeat split; reflexivity |].
  rewrite updateUI_dom_run.
  destruct (final_step data);
    [| destruct (nonempty_resources data);
       [| destruct (truthy_next_question data)]];
    destruct (dom w); repeat split; reflexivity.
Qed.

(** X4.  Processing a response twice leaves the page as processing it once
    does: both lists are emptied before they are filled, so a response that
    arrives twice adds no item twice. *)
Theorem updateUI_idempotent (data : ApiResponse) (w : World) :
  exec (updateUI data) (exec (updateUI data) w) = exec (updateUI data) w.
Proof.
  unfold exec. rewrite !updateUI_run. cbn [snd dom with_dom].
  unfold with_dom. cbn [assessmentState alerts console_errors requests
                        awaiting_callApi awaiting_fetchAnswer].
  f_equal. rewrite !updateUI_dom_run.
  destruct (final_step data);
    [| destruct (nonempty_resources data);
       [| destruct (truthy_next_question data)]];
    destruct (dom w); reflexivity.
Qed.

(** ** The three views *)

(** What each event does to the three views. *)
Lemma handler_views (ev : Event) (w : World) :
  let w' := exec (handler ev) w in
  hidden startScreen (dom w') =
    (hidden startScreen (dom w) ||
     match ev with
     | ClickStart => truthy (careerInput_value (dom w))
     | _ => false
     end) /\
  hidden resultsScreen (dom w') =
    (hidden resultsScreen (dom w) &&
     match ev with
     | CareerAssessmentSettled (Resolved data) => negb (final_step data)
     | _ => true
     end) /\
  hidden questionScreen (dom w') =
    match ev with
    | ClickStart =>
        hidden questionScreen (dom w) && negb (truthy (careerInput_value (dom w)))
    | CareerAssessmentSettled (Resolved data) =>
        hidden questionScreen (dom w) || final_step data
    | _ => hidden questionScreen (dom w)
    end.
Proof.
  intros w'. unfold w'. clear w'.
  destruct ev as [s | | | | | | [e | data] | [e | data]].
  - unfold exec. simpl. destruct (dom w).
    cbn. rewrite orb_false_r, andb_true_r. repeat split; reflexivity.
  - unfold exec. simpl handler.
    destruct (string_dec (careerInput_value (dom w)) "") as [He | Hne].
    + rewrite (startAssessment_empty w He), He. cbn [snd dom].
      cbn [truthy String.eqb negb].
      rewrite orb_false_r, !andb_true_r. repeat split; reflexivity.
    + rewrite (startAssessment_nonempty w Hne).
      apply truthy_true_iff in Hne. rewrite Hne. cbn [snd dom negb].
      destruct (dom w). cbn.
      rewrite orb_true_r, andb_true_r, andb_false_r. repeat split; reflexivity.
  - event_effect. destruct (dom w). cbn.
    rewrite orb_false_r, andb_true_r. repeat split; reflexivity.
  - event_effect. destruct (dom w). cbn.
    rewrite orb_false_r, andb_true_r. repeat split; reflexivity.
  - event_effect. destruct (dom w). cbn.
    rewrite orb_false_r, andb_true_r. repeat split; reflexivity.
  - event_effect. destruct (dom w). cbn.
    rewrite orb_false_r, andb_true_r. repeat split; reflexivity.
  - event_effect. destruct (dom w). cbn.
    rewrite orb_false_r, andb_true_r. repeat split; reflexivity.
  - event_effect. cbn [snd dom].
    rewrite !hidden_set_other by discriminate.
    destruct (updateUI_dom_screens data (dom w)) as (Hs & Hfin & Hnot).
    rewrite Hs, orb_false_r. split; [reflexivity |].
    destruct (final_step data).
    + destruct (Hfin eq_refl) as [-> ->].
      rewrite andb_false_r, orb_true_r. split; reflexivity.
    + destruct (Hnot eq_refl) as [-> ->].
      rewrite andb_true_r, orb_false_r. split; reflexivity.
  - event_effect. destruct (dom w). cbn.
    rewrite orb_false_r, andb_true_r. repeat split; reflexivity.
  - event_effect. destruct (dom w). cbn.
    rewrite orb_false_r, andb_true_r. repeat split; reflexivity.
Qed.

(** X5.  Which event moves which view, for every event in every state: the
    start view is hidden by Begin with a career that is not empty and is
    never shown again; the results view is shown by a final response and is
    never hidden again; the question view is shown by that Begin and hidden
    by a final response, and by nothing else. *)
Theorem view_transitions (ev : Event) (w : World) :
  let w' := exec (handler ev) w in
  hidden startScreen (dom w') =
    (hidden startScreen (dom w) ||
     match ev with
     | ClickStart => truthy (careerInput_value (dom w))
     | _ => false
     end) /\
  hidden resultsScreen (dom w') =
    (hidden resultsScreen (dom w) &&
     match ev with
     | CareerAssessmentSettled (Resolved data) => negb (final_step data)
     | _ => true
     end) /\
  hidden questionScreen (dom w') =
    match ev with
    | ClickStart =>
        hidden questionScreen (dom w) && negb (truthy (careerInput_value (dom w)))
    | CareerAssessmentSettled (Resolved data) =>
        hidden questionScreen (dom w) || final_step data
    | _ => hidden questionScreen (dom w)
    end.
Proof. exact (handler_views ev w). Qed.

(** ** Requests *)

(** X6.  No event sends more than one request.  A grading click, a retry
    and a reveal send exactly one; Begin sends one unless the career is
    empty; a request that settles, however it ends, sends none: nothing is
    sent again by the script itself. *)
Theorem one_request_per_action (ev : Event) (w : World) :
  exists sent : list Request,
    requests (exec (handler ev) w) = (requests w ++ sent)%list /\
    length sent =
      match ev with
      | ClickStart => if truthy (careerInput_value (dom w)) then 1 else 0
      | ClickCorrect | ClickIncorrect | ClickRetry | ClickReveal => 1
      | TypeCareer _ | CareerAssessmentSettled _ | RevealAnswerSettled _ => 0
      end.
Proof.
  rewrite handler_requests.
  eexists. split; [reflexivity |].
  destruct ev as [s | | | | | | o | o]; try reflexivity.
  destruct (truthy (careerInput_value (dom w))); reflexivity.
Qed.

Lemma request_in_order_extend (st st' : AssessmentState) (r : Request) :
  career st' = career st ->
  (exists ext : list UserAnswer,
     previous_answers st' = (previous_answers st ++ ext)%list) ->
  request_in_order st r -> request_in_order st' r.
Proof.
  intros Hc [ext Hext] Hr. destruct r as [body | q]; [| exact I].
  destruct Hr as (Hne & Heq & Htot & more & Hmore).
  repeat split; try assumption; try congruence.
  exists (more ++ ext)%list. rewrite Hext, Hmore, app_assoc. reflexivity.
Qed.

Lemma request_in_order_self (st : AssessmentState) :
  career st <> "" -> total_questions st = 3%Z ->
  request_in_order st (PostCareerAssessment st).
Proof.
  intros Hne Htot. repeat split; try assumption.
  exists []. symmetry. apply app_nil_r.
Qed.

Lemma loaded_session_invariant (w : World) : loaded w -> session_invariant w.
Proof.
  intros (Hst & Hs & _ & _ & Hreq & _). repeat split.
  - rewrite Hst. reflexivity.
  - rewrite Hs. discriminate.
  - rewrite Hreq. constructor.
Qed.

Lemma step_session_invariant (ev : Event) (w w' : World) :
  page_invariant w -> session_invariant w ->
  step ev w = Some w' -> session_invariant w'.
Proof.
  intros [Hstart Hres] (Htot & Hcar & Hreqs) Hs.
  apply step_inv in Hs as [Hen ->].
  destruct (handler_views ev w) as (Hview & _ & _).
  unfold session_invariant.
  rewrite handler_total_questions, Hview, handler_requests.
  split; [exact Htot |].
  assert (Hclick : hidden questionScreen (dom w) = false ->
                   career (assessmentState w) <> "").
  { intros Hq. apply Hcar.
    destruct (hidden startScreen (dom w)) eqn:E; [reflexivity |].
    destruct (Hstart eq_refl) as (Hq' & _). congruence. }
  destruct ev as [s | | | | | | o | o]; cbn [enabled] in Hen;
    rewrite handler_session.
  - rewrite orb_false_r, app_nil_r. split; assumption.
  - (* Begin *)
    apply negb_true_iff in Hen.
    destruct (Hstart Hen) as (_ & _ & _ & Hreq & _ & _).
    rewrite Hen, Hreq. cbn [orb app set_career career].
    destruct (truthy (careerInput_value (dom w))) eqn:Ht.
    + apply truthy_true_iff in Ht. split; [intros _; exact Ht |].
      constructor; [| constructor].
      apply request_in_order_self; [exact Ht | exact Htot].
    + split; [discriminate | constructor].
  - (* Reveal *)
    rewrite orb_false_r. split; [exact Hcar |].
    apply Forall_app. split; [exact Hreqs |]. constructor; [exact I | constructor].
  - (* Grade, correct *)
    apply negb_true_iff in Hen. rewrite orb_false_r. split; [exact Hcar |].
    apply Forall_app. split.
    + eapply Forall_impl; [| exact Hreqs]. intros r.
      apply request_in_order_extend; [reflexivity |].
      eexists. reflexivity.
    + constructor; [| constructor].
      apply request_in_order_self; [exact (Hclick Hen) | exact Htot].
  - (* Grade, incorrect *)
    apply negb_true_iff in Hen. rewrite orb_false_r. split; [exact Hcar |].
    apply Forall_app. split.
    + eapply Forall_impl; [| exact Hreqs]. intros r.
      apply request_in_order_extend; [reflexivity |].
      eexists. reflexivity.
    + constructor; [| constructor].
      apply request_in_order_self; [exact (Hclick Hen) | exact Htot].
  - (* Retry *)
    apply andb_true_iff in Hen as [Hq _]. apply negb_true_iff in Hq.
    rewrite orb_false_r. split; [exact Hcar |].
    apply Forall_app. split.
    + eapply Forall_impl; [| exact Hreqs]. intros r.
      apply request_in_order_extend; [reflexivity |].
      exists []. symmetry. apply app_nil_r.
    + constructor; [| constructor].
      apply request_in_order_self; [exact (Hclick Hq) | exact Htot].
  - rewrite orb_false_r, app_nil_r. split; assumption.
  - rewrite orb_false_r, app_nil_r. split; assumption.
Qed.

Lemma run_session_invariant (evs : list Event) (w w' : World) :
  page_invariant w -> session_invariant w ->
  run evs w = Some w' -> session_invariant w'.
Proof.
  revert w. induction evs as [| ev rest IH]; intros w Hp Hi Hrun;
    simpl in Hrun.
  - injection Hrun as <-. exact Hi.
  - destruct (step ev w) as [w1 |] eqn:Hs; [| discriminate].
    apply (IH w1); [| | exact Hrun].
    + exact (step_invariant ev w w1 Hp Hs).
    + exact (step_session_invariant ev w w1 Hp Hi Hs).
Qed.

(** X7.  In every reachable state, each progress request that was sent
    carries the career of the session, which is not empty, the total of
    three questions, and a history that the history of the session extends:
    the server is never sent an empty career, and the histories it is sent
    are stages of one growing history. *)
Theorem requests_in_order (w : World) :
  reachable w ->
  Forall (request_in_order (assessmentState w)) (requests w).
Proof.
  intros (w0 & evs & Hl & Hrun).
  apply (run_session_invariant evs w0 w); try assumption.
  - exact (loaded_invariant w0 Hl).
  - exact (loaded_session_invariant w0 Hl).
Qed.

Lemma requests_in_order_witness :
  reachable (after graded_session) /\
  Forall (request_in_order (assessmentState (after graded_session)))
    (requests (after graded_session)).
Proof.
  assert (Hreach : reachable (after graded_session)).
  { apply reachable_after. vm_compute. discriminate. }
  split; [exact Hreach |].
  exact (requests_in_order (after graded_session) Hreach).
Defined.

(** The sample session has sent four progress requests. *)
Example graded_session_requests :
  length (requests (after graded_session)) = 4.
Proof. vm_compute. reflexivity. Qed.

(** ** Begin, once *)

(** X8.  Wherever Begin can be clicked with a career that is not empty,
    nothing was sent before, and the request Begin sends is the first one:
    it carries the career of the field, an empty history, three questions in
    total and [is_retry = false]. *)
Theorem begin_first_request (w : World) :
  reachable w ->
  enabled ClickStart w = true ->
  careerInput_value (dom w) <> "" ->
  step ClickStart w = Some (exec startAssessment w) /\
  requests (exec startAssessment w) =
    [PostCareerAssessment
       (mkAssessmentState (careerInput_value (dom w)) [] 3 false)].
Proof.
  intros Hreach Hen Hne. split.
  - unfold step. rewrite Hen. reflexivity.
  - destruct (reachable_invariant w Hreach) as [Hstart _].
    assert (Htot : total_questions (assessmentState w) = 3%Z).
    { destruct Hreach as (w0 & evs & Hl & Hrun).
      rewrite (run_total_questions evs w0 w Hrun).
      destruct Hl as (-> & _). reflexivity. }
    cbn [enabled] in Hen. apply negb_true_iff in Hen.
    destruct (Hstart Hen) as (_ & _ & _ & Hreq & Hretry & Hpa).
    unfold exec. rewrite (startAssessment_nonempty w Hne). cbn [snd requests].
    rewrite Hreq. unfold set_career. rewrite Hpa, Htot, Hretry. reflexivity.
Qed.

Lemma begin_first_request_witness :
  let w := exec (handler (TypeCareer "nurse")) fresh_world in
  reachable w /\
  enabled ClickStart w = true /\
  careerInput_value (dom w) <> "" /\
  step ClickStart w = Some (exec startAssessment w) /\
  requests (exec startAssessment w) =
    [PostCareerAssessment
       (mkAssessmentState (careerInput_value (dom w)) [] 3 false)].
Proof.
  assert (Hreach : reachable (exec (handler (TypeCareer "nurse")) fresh_world)).
  { exists fresh_world, [TypeCareer "nurse"].
    split; [repeat split; reflexivity | reflexivity]. }
  assert (Hne : careerInput_value
                  (dom (exec (handler (TypeCareer "nurse")) fresh_world)) <> "").
  { vm_compute. discriminate. }
  split; [exact Hreach |].
  split; [vm_compute; reflexivity |].
  split; [exact Hne |].
  apply (begin_first_request
           (exec (handler (TypeCareer "nurse")) fresh_world) Hreach);
    [vm_compute; reflexivity | exact Hne].
Defined.

Lemma step_career_fixed (ev : Event) (w w' : World) :
  hidden startScreen (dom w) = true ->
  step ev w = Some w' ->
  career (assessmentState w') = career (assessmentState w) /\
  hidden startScreen (dom w') = true.
Proof.
  intros Hst Hs. apply step_inv in Hs as [Hen ->].
  destruct (handler_views ev w) as (Hview & _ & _).
  rewrite Hview, Hst, handler_session. split; [| reflexivity].
  destruct ev; try reflexivity.
  cbn [enabled] in Hen. rewrite Hst in Hen. discriminate Hen.
Qed.

(** X9.  Once the start view is hidden the career is fixed: Begin cannot be
    clicked any more, no other handler writes the career, and nothing shows
    the start view again, so every later state of every run has the same
    career. *)
Theorem career_fixed_after_begin (evs : list Event) (w w' : World) :
  hidden startScreen (dom w) = true ->
  run evs w = Some w' ->
  career (assessmentState w') = career (assessmentState w) /\
  hidden startScreen (dom w') = true /\
  step ClickStart w' = None.
Proof.
  revert w. induction evs as [| ev rest IH]; intros w Hst Hrun; simpl in Hrun.
  - injection Hrun as <-. repeat split; try assumption.
    unfold step. cbn [enabled]. rewrite Hst. reflexivity.
  - destruct (step ev w) as [w1 |] eqn:Hs; [| discriminate].
    destruct (step_career_fixed ev w w1 Hst Hs) as [Hc Hst1].
    destruct (IH w1 Hst1 Hrun) as (Hc' & Hst' & Hno).
    repeat split; try assumption. congruence.
Qed.

Lemma career_fixed_after_begin_witness :
  let evs :=
    [ClickReveal; RevealAnswerSettled (Resolved (mkRevealResponse "Vitals."));
     ClickCorrect; CareerAssessmentSettled (Resolved remediation);
     ClickRetry; CareerAssessmentSettled (Rejected ParseError)] in
  let w := after begin_session in
  let w' := after (begin_session ++ evs)%list in
  hidden startScreen (dom w) = true /\
  run evs w = Some w' /\
  career (assessmentState w') = career (assessmentState w) /\
  hidden startScreen (dom w') = true /\
  step ClickStart w' = None.
Proof.
  split; [vm_compute; reflexivity |].
  split; [vm_compute; reflexivity |].
  apply (career_fixed_after_begin
           [ClickReveal;
            RevealAnswerSettled (Resolved (mkRevealResponse "Vitals."));
            ClickCorrect; CareerAssessmentSettled (Resolved remediation);
            ClickRetry; CareerAssessmentSettled (Rejected ParseError)]
           (after begin_session)).
  - vm_compute. reflexivity.
  - vm_compute. reflexivity.
Defined.

(** ** A request and its end *)

(** X10.  A progress request that fails undoes nothing and shows nothing:
    with the loading indicator hidden before the request, the page after the
    failure is the page before the request; the session is as it was when
    the request left, no alert is raised, and the only trace is one line on
    the console. *)
Theorem failed_progress_request_restores_page (w : World) (e : Error) :
  hidden loadingIndicator (dom w) = true ->
  let w' := exec (callApi_continue (Rejected e)) (exec callApi_request w) in
  dom w' = dom w /\
  assessmentState w' = assessmentState w /\
  alerts w' = alerts w /\
  console_errors w' =
    (console_errors w ++ [(career_assessment_failed, e)])%list /\
  requests w' = (requests w ++ [PostCareerAssessment (assessmentState w)])%list /\
  awaiting w' = awaiting w.
Proof.
  intros Hl w'. unfold w', exec, awaiting.
  rewrite callApi_request_run. cbn [snd].
  rewrite callApi_continue_rejected.
  destruct w as [st d al ce rq n1 n2]. destruct d. cbn in Hl. subst.
  repeat split; reflexivity.
Qed.

Lemma failed_progress_request_restores_page_witness :
  hidden loadingIndicator (dom (after begin_session)) = true /\
  let w := after begin_session in
  let w' := exec (callApi_continue (Rejected NetworkError))
              (exec callApi_request w) in
  dom w' = dom w /\
  assessmentState w' = assessmentState w /\
  alerts w' = alerts w /\
  console_errors w' =
    (console_errors w ++ [(career_assessment_failed, NetworkError)])%list /\
  requests w' = (requests w ++ [PostCareerAssessment (assessmentState w)])%list /\
  awaiting w' = awaiting w.
Proof.
  split; [vm_compute; reflexivity |].
  apply (failed_progress_request_restores_page (after begin_session)
           NetworkError).
  vm_compute. reflexivity.
Defined.

(** X11.  The loading indicator does not count requests: when two or more
    are awaited and one of them settles, however it ends, the indicator is
    hidden while a request is still awaited. *)
Theorem loading_indicator_not_counted (w : World) :
  2 <= awaiting w ->
  (forall o : Outcome ApiResponse,
     0 < awaiting_callApi w ->
     let w' := exec (callApi_continue o) w in
     hidden loadingIndicator (dom w') = true /\ 1 <= awaiting w') /\
  (forall o : Outcome RevealResponse,
     0 < awaiting_fetchAnswer w ->
     let w' := exec (fetchAnswer_continue o) w in
     hidden loadingIndicator (dom w') = true /\ 1 <= awaiting w').
Proof.
  intros H2. split; intros o Hpos w'; unfold w', exec, awaiting in *.
  - destruct o as [e | data];
      [rewrite callApi_continue_rejected | rewrite callApi_continue_resolved];
      cbn [snd dom awaiting_callApi awaiting_fetchAnswer];
      (split; [apply hidden_set_same | lia]).
  - destruct o as [e | data];
      [rewrite fetchAnswer_continue_rejected
      | rewrite fetchAnswer_continue_resolved];
      cbn [snd dom awaiting_callApi awaiting_fetchAnswer];
      (split; [apply hidden_set_same | lia]).
Qed.

Lemma loading_indicator_not_counted_witness :
  let w := exec fetchAnswer_request (after awaiting_session) in
  2 <= awaiting w /\
  (forall o : Outcome ApiResponse,
     0 < awaiting_callApi w ->
     let w' := exec (callApi_continue o) w in
     hidden loadingIndicator (dom w') = true /\ 1 <= awaiting w') /\
  (forall o : Outcome RevealResponse,
     0 < awaiting_fetchAnswer w ->
     let w' := exec (fetchAnswer_continue o) w in
     hidden loadingIndicator (dom w') = true /\ 1 <= awaiting w').
Proof.
  assert (H2 : 2 <= awaiting (exec fetchAnswer_request (after awaiting_session))).
  { vm_compute. apply le_n. }
  split; [exact H2 |].
  exact (loading_indicator_not_counted
           (exec fetchAnswer_request (after awaiting_session)) H2).
Defined.

(** ** How the handlers compose *)

(** X12.  A retry sends again what the grading before it sent, with only
    the flag raised: whatever the request of the Grade ends with, the
    request of the Retry that follows carries the same career, the same
    history and the same total, and [is_retry = true]. *)
Theorem retry_resends_graded_body (w : World) (b : bool)
    (o : Outcome ApiResponse) :
  let w1 := exec (handleAnswer b) w in
  let w3 := exec retryListener (exec (callApi_continue o) w1) in
  requests w3 =
    (requests w
       ++ [PostCareerAssessment (assessmentState w1);
           PostCareerAssessment (set_is_retry true (assessmentState w1))])%list.
Proof.
  intros w1 w3. unfold w3, w1, exec.
  rewrite handleAnswer_run. cbn [snd].
  rewrite retryListener_run. cbn [snd requests assessmentState].
  destruct o as [e | data];
    [rewrite callApi_continue_rejected | rewrite callApi_continue_resolved];
    cbn [snd requests assessmentState]; rewrite <- app_assoc; reflexivity.
Qed.

(** X13.  Nothing holds a second click back while a request is awaited:
    where Grade can be clicked, two grading clicks in a row both run, record
    the same displayed question twice and leave two more requests awaited. *)
Theorem double_grade (w : World) (b1 b2 : bool) :
  enabled (grade b1) w = true ->
  exists w2 : World,
    run [grade b1; grade b2] w = Some w2 /\
    previous_answers (assessmentState w2) =
      (previous_answers (assessmentState w)
         ++ [mkUserAnswer (displayed w) b1;
             mkUserAnswer (displayed w) b2])%list /\
    length (requests w2) = 2 + length (requests w) /\
    awaiting_callApi w2 = 2 + awaiting_callApi w.
Proof.
  intros Hen.
  assert (Hq : hidden questionScreen (dom w) = false).
  { destruct b1; simpl in Hen; apply negb_true_iff in Hen; exact Hen. }
  exists (exec (handleAnswer b2) (exec (handleAnswer b1) w)).
  unfold exec, displayed.
  rewrite (handleAnswer_run b1 w). cbn [snd].
  rewrite handleAnswer_run. cbn [snd].
  destruct w as [st d al ce rq n1 n2]. destruct d. cbn in Hq. subst.
  destruct b1, b2; cbn; rewrite ?or_else_empty, ?length_app; cbn;
    repeat split; try reflexivity; try lia;
    rewrite <- app_assoc; reflexivity.
Qed.

Lemma double_grade_witness :
  enabled (grade true) (after begin_session) = true /\
  exists w2 : World,
    run [grade true; grade false] (after begin_session) = Some w2 /\
    previous_answers (assessmentState w2) =
      (previous_answers (assessmentState (after begin_session))
         ++ [mkUserAnswer (displayed (after begin_session)) true;
             mkUserAnswer (displayed (after begin_session)) false])%list /\
    length (requests w2) = 2 + length (requests (after begin_session)) /\
    awaiting_callApi w2 = 2 + awaiting_callApi (after begin_session).
Proof.
  split; [vm_compute; reflexivity |].
  apply (double_grade (after begin_session) true false).
  vm_compute. reflexivity.
Defined.

(** X14.  Revealing the answer changes nothing of what is graded: Reveal
    sends the displayed question, and once its request has settled, however
    it ends, the answer panel is shown, the displayed question is the same
    and a Grade records and sends the session it would have without the
    Reveal. *)
Theorem reveal_keeps_record (w : World) (o : Outcome RevealResponse) (b : bool) :
  let w1 := exec (fetchAnswer_continue o) (exec fetchAnswer_request w) in
  requests (exec fetchAnswer_request w) =
    (requests w ++ [PostRevealAnswer (displayed w)])%list /\
  hidden answerBox (dom w1) = false /\
  displayed w1 = displayed w /\
  assessmentState (exec (handleAnswer b) w1) =
    assessmentState (exec (handleAnswer b) w).
Proof.
  intros w1. unfold w1, exec.
  rewrite fetchAnswer_request_run. cbn [snd requests].
  split; [reflexivity |].
  destruct o as [e | data];
    [rewrite fetchAnswer_continue_rejected
    | rewrite fetchAnswer_continue_resolved];
    cbn [snd]; rewrite !handleAnswer_run; unfold displayed;
    destruct w as [st d al ce rq n1 n2]; destruct d;
    repeat split; reflexivity.
Qed.

(** X15.  The remediation branch puts the review prompt in the place of the
    question, and [handleAnswer] records what is displayed: run after a
    remediation response, it records the review prompt as the question, not
    the question that was asked nor the [next_question] of the response. *)
Theorem grade_during_remediation
    (msg nq ans : option string) (r : Resource) (rs : list Resource)
    (b : bool) (w : World) :
  let data := mkApiResponse msg nq (Some (r :: rs)) false ans in
  previous_answers
    (assessmentState (exec (handleAnswer b) (exec (updateUI data) w))) =
  (previous_answers (assessmentState w) ++ [mkUserAnswer review_prompt b])%list.
Proof.
  intros data. unfold exec. rewrite handleAnswer_run, updateUI_run.
  unfold displayed. cbn [snd dom with_dom assessmentState previous_answers].
  rewrite updateUI_dom_run. destruct (dom w). reflexivity.
Qed.
